(** * Interactive-session layer of the Gemini CLI (Bun port)

    A shallow embedding of

    - [packages/cli/src/utils/relaunch.ts]: the relaunch supervisor
      ([relaunchOnExitCode], [relaunchAppInChildProcess]), of which the
      file holds two revisions (lines 1-74 and 75-152);
    - the PTY adapter ([createBunPtyAdapter], [createPtyAdapter]) that wraps
      the [bun-pty] library; its text follows the bundler configuration in
      [esbuild.config.js], lines 137-293.

    Line numbers are those of these two files.

    Further on, the TTY probes ([ttyUtils.ts]), the handler of the global
    entry point ([index.ts]), the build scripts ([build-binary.ts],
    [build-release.ts], [build-wrapper.ts]) and the launcher that
    [build-wrapper.ts] writes are embedded in the same way.

    Effects of the TypeScript code (pausing and resuming stdin, spawning a
    child, writing to stderr, [process.exit], calls into bun-pty, debug
    logging) are made explicit: the supervisor produces a trace of events,
    the adapter a log of backend calls and a threaded module state. *)

From Stdlib Require Import ZArith String List Lia.
From stdpp Require Import base option list strings gmap.

Local Open Scope string_scope.
Local Open Scope list_scope.

(** ** JavaScript values that the modelled code inspects *)

(** What a [catch] clause can receive.  [error instanceof Error] holds for
    [ErrorObject]; any other thrown value is carried with the result of
    [String(error)]. *)
Inductive JsError : Type :=
| ErrorObject (stack : option string) (message : string)
| ThrownValue (str : string).

(** ** The relaunch supervisor *)

Module Relaunch.

(** Observable actions of the supervisor, in program order.  The child is
    always spawned with [stdio: 'inherit'], which is not recorded.  An
    element [None] of [args] is an [undefined] array element (the source
    places [process.argv[1]] in the array without checking it). *)
Inductive Event : Type :=
| StdinPause
| StdinResume
| Spawn (execPath : string) (args : list (option string))
        (env : gmap string string)
| WriteToStderr (msg : string)
| ProcessExit (code : Z).

(** The part of the global [process] object that the code reads. *)
Record Process : Type := {
  argv : list string;
  env : gmap string string;
  execPath : string
}.

(** How a promise returned by a runner settles. *)
Inductive Settled : Type :=
| Resolved (exitCode : Z)
| Rejected (error : JsError).

(** A runner [() => Promise<number>] is called repeatedly; its [i]-th call
    (counting from 0) performs some events and settles. *)
Definition Runner : Type := nat -> list Event * Settled.

(** Where control is after running the supervisor for a bounded number of
    loop iterations. *)
Inductive Status : Type :=
| Returned              (* the async function returned to its caller *)
| Exited (code : Z)     (* [process.exit(code)] ended the process *)
| Pending.              (* still inside [while (true)] *)

Record Run : Type := {
  status : Status;
  calls : nat;            (* how many times the runner was invoked *)
  trace : list Event
}.

Definition nl : string := String (Ascii.ascii_of_nat 10) EmptyString.

(** [error instanceof Error ? (error.stack ?? error.message) : String(error)] *)
Definition errorMessage (error : JsError) : string :=
  match error with
  | ErrorObject stack message => default message stack
  | ThrownValue str => str
  end.

Section Loop.

(** [RELAUNCH_EXIT_CODE] is imported from [./processUtils.js]; its value is
    not needed, only that it is one fixed number. *)
Variable RELAUNCH_EXIT_CODE : Z.

(** [relaunchOnExitCode], lines 11-29 (and, unchanged, 85-103).  [fuel]
    bounds the iterations of [while (true)]; [i] is the number of runner
    calls made so far and [tr] the events so far. *)
Fixpoint relaunchOnExitCode_from (fuel : nat) (runner : Runner) (i : nat)
    (tr : list Event) : Run :=
  match fuel with
  | O => {| status := Pending; calls := i; trace := tr |}
  | S fuel' =>
      let '(evs, settled) := runner i in
      match settled with
      | Resolved exitCode =>
          if (exitCode =? RELAUNCH_EXIT_CODE)%Z
          then relaunchOnExitCode_from fuel' runner (S i) (tr ++ evs)
          else {| status := Exited exitCode; calls := S i;
                  trace := tr ++ evs ++ [ProcessExit exitCode] |}
      | Rejected error =>
          {| status := Exited 1; calls := S i;
             trace := tr ++ evs ++
               [StdinResume;
                WriteToStderr
                  ("Fatal error: Failed to relaunch the CLI process."
                   +:+ nl +:+ errorMessage error +:+ nl);
                ProcessExit 1] |}
      end
  end.

Definition relaunchOnExitCode (fuel : nat) (runner : Runner) : Run :=
  relaunchOnExitCode_from fuel runner 0 [].

End Loop.

(** How a spawned child ends, as seen by the two listeners the runner
    installs: a ['close'] event with [code: number | null], or an ['error']
    event.  Each child is taken to end with one of the two; whether and
    when a runtime delivers both for one child is not in the source. *)
Inductive ChildEnd : Type :=
| ChildClose (code : option Z)
| ChildError (error : JsError).

(** [if (process.env['GEMINI_CLI_NO_RELAUNCH'])]: an unset variable reads as
    [undefined] and a variable set to the empty string reads as [''], both
    falsy. *)
Definition truthy (v : option string) : bool :=
  match v with
  | Some s => negb (String.eqb s "")
  | None => false
  end.

(** [s?.startsWith(p)], with [undefined] (falsy) for a missing [s]. *)
Definition startsWith (s : option string) (p : string) : bool :=
  match s with
  | Some s => String.prefix p s
  | None => false
  end.

(** The body shared by the two revisions of the runner closure, from
    [const newEnv] on: lines 53-70 and 131-148. *)
Definition spawnAndWait (process : Process) (args : list (option string))
    (child : ChildEnd) : list Event * Settled :=
  let newEnv := <["GEMINI_CLI_NO_RELAUNCH" := "true"]> (env process) in
  let started := [StdinPause; Spawn (execPath process) args newEnv] in
  match child with
  | ChildClose code => (started ++ [StdinResume], Resolved (default 1%Z code))
  | ChildError error => (started, Rejected error)
  end.

(** The file holds two revisions of [relaunchAppInChildProcess].  [children
    i] is how the [i]-th spawned child ends. *)

(** Lines 31-74: the compiled-binary test sits inside the runner and only
    decides whether the script path is passed on. *)
Module RevA.

Definition runner (process : Process)
    (additionalBunArgs additionalScriptArgs : list string)
    (children : nat -> ChildEnd) : Runner := fun i =>
  let scriptArgs := drop 2 (argv process) in
  let isCompiledBinary := startsWith (argv process !! 1) "/$bunfs/" in
  let scriptPath := if isCompiledBinary then [] else [argv process !! 1] in
  let args := (Some <$> additionalBunArgs) ++ scriptPath
              ++ (Some <$> additionalScriptArgs) ++ (Some <$> scriptArgs) in
  spawnAndWait process args (children i).

Definition relaunchAppInChildProcess (RELAUNCH_EXIT_CODE : Z) (fuel : nat)
    (process : Process)
    (additionalBunArgs additionalScriptArgs : list string)
    (children : nat -> ChildEnd) : Run :=
  if truthy (env process !! "GEMINI_CLI_NO_RELAUNCH")
  then {| status := Returned; calls := 0; trace := [] |}
  else relaunchOnExitCode RELAUNCH_EXIT_CODE fuel
         (runner process additionalBunArgs additionalScriptArgs children).

End RevA.

(** Lines 105-152: the compiled-binary test is made once, before the loop,
    knows both path prefixes and returns. *)
Module RevB.

Definition isCompiledBinary (scriptPath : option string) : bool :=
  startsWith scriptPath "/$bunfs/" || startsWith scriptPath "B:/~BUN/".

Definition runner (process : Process)
    (additionalBunArgs additionalScriptArgs : list string)
    (scriptPath : option string)
    (children : nat -> ChildEnd) : Runner := fun i =>
  let scriptArgs := drop 2 (argv process) in
  let args := (Some <$> additionalBunArgs) ++ [scriptPath]
              ++ (Some <$> additionalScriptArgs) ++ (Some <$> scriptArgs) in
  spawnAndWait process args (children i).

Definition relaunchAppInChildProcess (RELAUNCH_EXIT_CODE : Z) (fuel : nat)
    (process : Process)
    (additionalBunArgs additionalScriptArgs : list string)
    (children : nat -> ChildEnd) : Run :=
  if truthy (env process !! "GEMINI_CLI_NO_RELAUNCH")
  then {| status := Returned; calls := 0; trace := [] |}
  else
    let scriptPath := argv process !! 1 in
    if isCompiledBinary scriptPath
    then {| status := Returned; calls := 0; trace := [] |}
    else relaunchOnExitCode RELAUNCH_EXIT_CODE fuel
           (runner process additionalBunArgs additionalScriptArgs scriptPath
              children).

End RevB.

End Relaunch.

(** ** The PTY adapter over bun-pty *)

Module PtyAdapter.

(** Values an environment mapping can hold at run time.  The declared type
    is [Record<string, string>], but the code itself tests for [undefined]
    and [null]. *)
Inductive JsValue : Type :=
| JsUndefined
| JsNull
| JsBoolean (b : bool)
| JsString (s : string).

(** [String(value)] *)
Definition String_ (value : JsValue) : string :=
  match value with
  | JsUndefined => "undefined"
  | JsNull => "null"
  | JsBoolean true => "true"
  | JsBoolean false => "false"
  | JsString s => s
  end.

(** An object as the list of its own enumerable string-keyed properties:
    this is what [Object.entries] enumerates.  The order of the list is the
    order of creation; no statement below depends on it. *)
Definition JsObject : Type := list (string * JsValue).

Definition Object_entries (o : JsObject) : list (string * JsValue) := o.

(** Defining or overwriting an own property. *)
Fixpoint define (o : JsObject) (key : string) (value : JsValue) : JsObject :=
  match o with
  | [] => [(key, value)]
  | (k, x) :: o' =>
      if String.eqb k key then (k, value) :: o'
      else (k, x) :: define o' key value
  end.

(** [o[key] = value] for an object created by a literal [{}] and a [value]
    that is a string.  Such an object inherits the [__proto__] accessor of
    [Object.prototype], whose setter ignores a value that is neither an
    object nor [null]: that one key creates no property. *)
Definition assign (o : JsObject) (key : string) (value : JsValue) : JsObject :=
  if String.eqb key "__proto__" then o else define o key value.

(** [value !== undefined && value !== null] *)
Definition isPresent (value : JsValue) : bool :=
  match value with
  | JsUndefined | JsNull => false
  | _ => true
  end.

(** The [for ... of Object.entries(options.env)] loop of [spawn], lines
    227-231, run on the object [cleanEnv] built so far. *)
Fixpoint cleanEntries (entries : list (string * JsValue)) (cleanEnv : JsObject)
    : JsObject :=
  match entries with
  | [] => cleanEnv
  | (key, value) :: rest =>
      if isPresent value
      then cleanEntries rest (assign cleanEnv key (JsString (String_ value)))
      else cleanEntries rest cleanEnv
  end.

Record PtySpawnOptions : Type := {
  name : option string;
  cols : option Z;
  rows : option Z;
  cwd : option string;
  env : option JsObject;
  handleFlowControl : option bool
}.

(** The options object literal that [spawn] builds for bun-pty, lines
    234-240. *)
Record ForkOptions : Type := {
  fork_name : string;
  fork_cols : Z;
  fork_rows : Z;
  fork_cwd : option string;
  fork_env : JsObject
}.

(** The object bun-pty hands to an exit listener.  The wrapper of [onExit]
    reads [exitCode] from it and nothing else; [signal] stands for whatever
    more the library reports. *)
Record BackendExit : Type := {
  backend_exitCode : Z;
  backend_signal : option Z
}.

(** The argument of a callback registered with [PtyInstance.onExit]:
    [{ exitCode: number; signal?: number }]. *)
Record ExitEvent : Type := {
  exitCode : Z;
  signal : option Z
}.

(** The handle returned by bun-pty's [spawn]. *)
Record BunPty : Type := { bun_pid : Z }.

Section Instances.

(** What running a callback amounts to is left open. *)
Context {R : Type}.

(** Method calls that a [PtyInstance] makes on its bun-pty handle. *)
Inductive BackendCall : Type :=
| PtyOnData (listener : string -> R)
| PtyOnExit (listener : BackendExit -> R)
| PtyWrite (data : string)
| PtyKill (signal : option string)
| PtyResize (cols rows : Z).

(** [PtyInstance], lines 157-175: each method is given by the call it makes
    on the backend handle. *)
Record PtyInstance : Type := {
  pid : Z;
  onData : (string -> R) -> BackendCall;
  onExit : (ExitEvent -> R) -> BackendCall;
  write : string -> BackendCall;
  kill : option string -> BackendCall;
  resize : Z -> Z -> BackendCall
}.

(** bun-pty's [spawn] function. *)
Definition BunPtySpawn : Type :=
  string -> list string -> ForkOptions -> BunPty.

(** What one call of the adapter's [spawn] does: the arguments it hands to
    bun-pty and the instance it returns. *)
Record Spawned : Type := {
  handed : string * list string * ForkOptions;
  instance : PtyInstance
}.

(** The [spawn] method of the adapter object, lines 223-264; [spawn_] is
    the captured [const spawn = bunPtySpawn]. *)
Definition spawn (spawn_ : BunPtySpawn) (command : string)
    (args : list string) (options : PtySpawnOptions) : Spawned :=
  let cleanEnv :=
    match env options with
    | Some e => cleanEntries (Object_entries e) []
    | None => []
    end in
  let forkOptions :=
    {| fork_name := default "xterm-256color" (name options);
       fork_cols := default 80%Z (cols options);
       fork_rows := default 24%Z (rows options);
       fork_cwd := cwd options;
       fork_env := cleanEnv |} in
  let pty := spawn_ command args forkOptions in
  {| handed := (command, args, forkOptions);
     instance :=
       {| pid := bun_pid pty;
          onData := fun callback => PtyOnData callback;
          onExit := fun callback =>
            PtyOnExit (fun e =>
              callback {| exitCode := backend_exitCode e; signal := None |});
          write := fun data => PtyWrite data;
          kill := fun _ => PtyKill None;
          resize := fun cols rows => PtyResize cols rows |} |}.

(** [PtyAdapter], lines 198-204. *)
Record PtyAdapter : Type := {
  backend : string;
  adapter_spawn : string -> list string -> PtySpawnOptions -> Spawned
}.

(** *** Module state, exceptions and the selector *)

(** The module-level cache [bunPtySpawn] and the entries received by
    [debugLogger.debug]. *)
Record ModuleState : Type := {
  bunPtySpawn : option BunPtySpawn;
  debugLog : list (string * JsError)
}.

(** What the hosting runtime decides: whether [globalThis.Bun] is defined,
    and what [await import('bun-pty')] gives: the module's [spawn], or the
    error the import throws. *)
Record Host : Type := {
  isBun : bool;
  importBunPty : BunPtySpawn + JsError
}.

(** A computation either completes normally or throws. *)
Inductive Completion (A : Type) : Type :=
| Normal (a : A)
| Throw (e : JsError).
Arguments Normal {A} a.
Arguments Throw {A} e.

(** Computations over the module state that may throw. *)
Definition M (A : Type) : Type := ModuleState -> Completion A * ModuleState.

Definition ret {A : Type} (a : A) : M A := fun st => (Normal a, st).

Definition bind {A B : Type} (m : M A) (k : A -> M B) : M B := fun st =>
  match m st with
  | (Normal a, st') => k a st'
  | (Throw e, st') => (Throw e, st')
  end.

Definition throw {A : Type} (e : JsError) : M A := fun st => (Throw e, st).

(** [try { m } catch (e) { handler e }] *)
Definition tryCatch {A : Type} (m : M A) (handler : JsError -> M A) : M A :=
  fun st =>
    match m st with
    | (Normal a, st') => (Normal a, st')
    | (Throw e, st') => handler e st'
    end.

Definition readCache : M (option BunPtySpawn) := fun st =>
  (Normal (bunPtySpawn st), st).

Definition writeCache (f : BunPtySpawn) : M unit := fun st =>
  (Normal tt, {| bunPtySpawn := Some f; debugLog := debugLog st |}).

(** Modelled from the spec: [debugLogger.debug] of [./debugLogger.js], which
    is not among the sources.  The diagnostic channel is "a structured
    debug-log sink receiving low-severity messages [...] with the causing
    error attached; must never block or throw": the call appends one entry
    and completes normally. *)
Definition debugLogger_debug (message : string) (e : JsError) : M unit :=
  fun st =>
    (Normal tt,
     {| bunPtySpawn := bunPtySpawn st;
        debugLog := debugLog st ++ [(message, e)] |}).

Notation "x <- m ;; k" := (bind m (fun x => k))
  (at level 100, m at next level, right associativity).
Notation "m ;;; k" := (bind m (fun _ => k))
  (at level 100, right associativity).

(** [createBunPtyAdapter], lines 213-266. *)
Definition createBunPtyAdapter (host : Host) : M PtyAdapter :=
  cached <- readCache ;;
  spawn_ <- match cached with
            | Some f => ret f
            | None =>
                match importBunPty host with
                | inl bunPty_spawn =>
                    (writeCache bunPty_spawn ;;; ret bunPty_spawn)
                | inr e => throw e
                end
            end ;;
  ret {| backend := "bun-pty"; adapter_spawn := spawn spawn_ |}.

(** [createPtyAdapter], lines 276-293; [None] is the [null] result. *)
Definition createPtyAdapter (host : Host) : M (option PtyAdapter) :=
  if negb (isBun host) then ret None
  else
    tryCatch
      (adapter <- createBunPtyAdapter host ;; ret (Some adapter))
      (fun e =>
         debugLogger_debug "Failed to create bun-pty adapter:" e ;;;
         ret None).

End Instances.

Arguments BackendCall R : clear implicits.
Arguments PtyInstance R : clear implicits.
Arguments Spawned R : clear implicits.
Arguments PtyAdapter R : clear implicits.
Arguments Normal {A} a.
Arguments Throw {A} e.

End PtyAdapter.

(** ** Vocabulary of the statements *)

Module Protocol.
Import Relaunch.

(** The events that concern the hand-over of standard input. *)
Inductive StdinStep : Type := Paused | ChildSpawned | Resumed.

Definition stdinStep (e : Event) : option StdinStep :=
  match e with
  | StdinPause => Some Paused
  | Spawn _ _ _ => Some ChildSpawned
  | StdinResume => Some Resumed
  | WriteToStderr _ | ProcessExit _ => None
  end.

Definition stdinView (tr : list Event) : list StdinStep := omap stdinStep tr.


(** The environment of a spawned child carries the marker. *)
Definition childEnvMarked (e : Event) : Prop :=
  match e with
  | Spawn _ _ env' => env' !! "GEMINI_CLI_NO_RELAUNCH" = Some "true"
  | _ => True
  end.

(** A property of an object whose value is a string. *)
Definition isString (kv : string * PtyAdapter.JsValue) : Prop :=
  exists s, kv.2 = PtyAdapter.JsString s.

End Protocol.

(** ** Concrete runs used as witnesses and counterexamples *)

Module Samples.
Import Relaunch.

(** A runner that asks for a relaunch twice and then finishes with 0. *)
Definition twiceThenZero : Runner := fun i =>
  if (i <? 2)%nat then ([], Resolved 199) else ([], Resolved 0).

(** [bun gemini.js --debug] *)
Definition devProcess : Process :=
  {| argv := ["bun"; "gemini.js"; "--debug"];
     env := {["HOME" := "/home/u"]};
     execPath := "/usr/bin/bun" |}.

(** The same invocation with the marker set, to the empty string. *)
Definition emptyMarkerProcess : Process :=
  {| argv := ["bun"; "gemini.js"; "--debug"];
     env := {["GEMINI_CLI_NO_RELAUNCH" := ""]};
     execPath := "/usr/bin/bun" |}.

(** The same invocation with the marker set to ["true"], as in a child. *)
Definition markedProcess : Process :=
  {| argv := ["bun"; "gemini.js"; "--debug"];
     env := {["GEMINI_CLI_NO_RELAUNCH" := "true"]};
     execPath := "/usr/bin/bun" |}.

(** A binary built with [bun build --compile], on Unix and on Windows. *)
Definition compiledUnix : Process :=
  {| argv := ["bun"; "/$bunfs/root/gemini"; "--debug"];
     env := {["HOME" := "/home/u"]};
     execPath := "/opt/gemini/bin/gemini" |}.


Definition enoent : JsError :=
  ErrorObject (Some "Error: spawn ENOENT") "spawn ENOENT".

(** The first child asks for a relaunch, the second is killed by a signal. *)
Definition relaunchThenSignal : nat -> ChildEnd := fun i =>
  match i with
  | O => ChildClose (Some 199%Z)
  | _ => ChildClose None
  end.

(** The first child asks for a relaunch, the second cannot be started. *)
Definition relaunchThenError : nat -> ChildEnd := fun i =>
  match i with
  | O => ChildClose (Some 199%Z)
  | _ => ChildError enoent
  end.

Definition closesWithZero : nat -> ChildEnd := fun _ => ChildClose (Some 0%Z).

End Samples.

Module PtySamples.
Import PtyAdapter.

(** A backend whose processes all get pid 4242. *)
Definition fakeSpawn : BunPtySpawn := fun _ _ _ => {| bun_pid := 4242 |}.

(** An environment with an [undefined] and a [null] entry. *)
Definition holedEnv : JsObject :=
  [("PATH", JsString "/usr/bin"); ("EDITOR", JsUndefined);
   ("PAGER", JsNull); ("CI", JsBoolean true)].

Definition holedOptions : PtySpawnOptions :=
  {| name := None; cols := Some 80%Z; rows := Some 24%Z; cwd := None;
     env := Some holedEnv; handleFlowControl := None |}.

(** [{ cols: 80, rows: 24, handleFlowControl: true }] *)
Definition flowControlOptions : PtySpawnOptions :=
  {| name := None; cols := Some 80%Z; rows := Some 24%Z; cwd := None;
     env := None; handleFlowControl := Some true |}.

(** [{ cols: 80, rows: 24 }] *)
Definition plainOptions : PtySpawnOptions :=
  {| name := None; cols := Some 80%Z; rows := Some 24%Z; cwd := None;
     env := None; handleFlowControl := None |}.


Definition loadFailure : JsError :=
  ErrorObject None "Cannot find package 'bun-pty'".

(** Node.js: [globalThis.Bun] is undefined. *)
Definition nodeHost : Host :=
  {| isBun := false; importBunPty := inr loadFailure |}.

(** Bun, with a bun-pty that fails to load. *)
Definition bunHostWithoutPty : Host :=
  {| isBun := true; importBunPty := inr loadFailure |}.

Definition freshModule : ModuleState :=
  {| bunPtySpawn := None; debugLog := [] |}.

End PtySamples.

(** ** Further vocabulary *)

Module Vocabulary.
Import Relaunch.

Definition isExit (e : Event) : bool :=
  match e with
  | ProcessExit _ => true
  | _ => false
  end.

(** The one way a child is started by a given parent. *)
Definition startedAs (execPath : string) (args : list (option string))
    (env' : gmap string string) (e : Event) : Prop :=
  match e with
  | Spawn x a v => x = execPath /\ a = args /\ v = env'
  | _ => True
  end.

End Vocabulary.

Module MoreSamples.
Import Relaunch.

Definition boom : JsError := ThrownValue "boom".

(** A runner that asks for a relaunch twice and then rejects. *)
Definition twiceThenReject : Runner := fun i =>
  if (i <? 2)%nat then ([], Resolved 199) else ([], Rejected boom).


End MoreSamples.

Module MorePtySamples.
Import PtyAdapter.

(** Bun, with a bun-pty that loads. *)
Definition bunHost : Host :=
  {| isBun := true; importBunPty := inl PtySamples.fakeSpawn |}.

(** An environment as [process.env] gives it: distinct names, strings. *)
Definition plainEnv : JsObject :=
  [("PATH", JsString "/usr/bin"); ("TERM", JsString "xterm");
   ("EMPTY", JsString "")].

Definition plainEnvOptions : PtySpawnOptions :=
  {| name := Some "dumb"; cols := Some 0%Z; rows := None; cwd := Some "/tmp";
     env := Some plainEnv; handleFlowControl := None |}.

End MorePtySamples.

(** ** The TTY probes, [packages/cli/src/utils/ttyUtils.ts] lines 1-41 *)

Module TtyUtils.
Import PtyAdapter.

(** [process.stdin.isTTY] and [process.stdout.isTTY]: [true], [false], or
    [undefined] ([None]) as in Bun compiled binaries. *)
Record Streams : Type := {
  stdin_isTTY : option bool;
  stdout_isTTY : option bool
}.

(** [tty.isatty(fd)] returns a boolean or throws. *)
Definition Isatty : Type := Z -> Completion bool.

(** The outcome of a probe and the descriptors handed to [tty.isatty]. *)
Record Probe : Type := {
  answer : Completion bool;
  asked : list Z
}.

(** [try { return tty.isatty(fd); } catch { return false; }] *)
Definition isattyOrFalse (isatty : Isatty) (fd : Z) : Probe :=
  {| answer := match isatty fd with
               | Normal b => Normal b
               | Throw _ => Normal false
               end;
     asked := [fd] |}.

(** [isStdinTTY], lines 13-24. *)
Definition isStdinTTY (streams : Streams) (isatty : Isatty) : Probe :=
  match stdin_isTTY streams with
  | Some true => {| answer := Normal true; asked := [] |}
  | _ => isattyOrFalse isatty 0
  end.

(** [isStdoutTTY], lines 30-41. *)
Definition isStdoutTTY (streams : Streams) (isatty : Isatty) : Probe :=
  match stdout_isTTY streams with
  | Some true => {| answer := Normal true; asked := [] |}
  | _ => isattyOrFalse isatty 1
  end.

End TtyUtils.

(** ** The global entry point, [packages/cli/index.ts] (the second of the
    unnamed sources), lines 26-44 *)

Module Entry.

Inductive Event : Type :=
| RunExitCleanup
| WriteToStderr (text : string)
| ProcessExit (code : Z).

(** What [main()] can reject with: a [FatalError] of the core package,
    which carries an exit code, or anything else. *)
Inductive Failure : Type :=
| IsFatalError (message : string) (exitCode : Z)
| IsOther (error : JsError).

Definition esc : string := String (Ascii.ascii_of_nat 27) EmptyString.

(** [error.stack + '\n'], where a missing stack prints as [undefined]. *)
Definition stackLine (error : JsError) : string :=
  match error with
  | ErrorObject stack _ => default "undefined" stack +:+ Relaunch.nl
  | ThrownValue str => str +:+ Relaunch.nl
  end.

(** The handler of [main().catch(...)]. *)
Definition onMainRejected (env : gmap string string) (error : Failure)
    : list Event :=
  RunExitCleanup ::
  match error with
  | IsFatalError message exitCode =>
      let errorMessage :=
        if negb (Relaunch.truthy (env !! "NO_COLOR"))
        then esc +:+ "[31m" +:+ message +:+ esc +:+ "[0m"
        else message in
      [WriteToStderr (errorMessage +:+ Relaunch.nl); ProcessExit exitCode]
  | IsOther e =>
      [WriteToStderr "An unexpected critical error occurred:";
       WriteToStderr (stackLine e);
       ProcessExit 1]
  end.

End Entry.

(** ** String operations of JavaScript used by the build scripts *)

Module Js.

(** [parts.join(sep)] on an array of strings. *)
Fixpoint join (sep : string) (parts : list string) : string :=
  match parts with
  | [] => ""
  | [x] => x
  | x :: rest => x +:+ sep +:+ join sep rest
  end.

(** [parts.filter(Boolean)] on an array of strings and [undefined]s: it
    drops [undefined] and the empty string. *)
Definition filterBoolean (parts : list (option string)) : list string :=
  omap (fun p => if Relaunch.truthy p then p else None) parts.

(** [s.includes(sub)] *)
Fixpoint includes (s sub : string) : bool :=
  String.prefix sub s ||
  match s with
  | EmptyString => false
  | String _ s' => includes s' sub
  end.

(** The rest of [s] after its first [n] characters. *)
Fixpoint skip (n : nat) (s : string) : string :=
  match n, s with
  | O, _ => s
  | S n', String _ s' => skip n' s'
  | S _, EmptyString => EmptyString
  end.

(** [s.replace(pattern, replacement)] for a string [pattern] and a
    [replacement] without [$]: the first occurrence is replaced. *)
Fixpoint replace (s pattern replacement : string) : string :=
  if String.prefix pattern s
  then replacement +:+ skip (String.length pattern) s
  else match s with
       | EmptyString => EmptyString
       | String c s' => String c (replace s' pattern replacement)
       end.

(** [s.split(sep)] for a separator of one character. *)
Fixpoint split (sep : Ascii.ascii) (s : string) : list string :=
  match s with
  | EmptyString => [EmptyString]
  | String c s' =>
      if Ascii.eqb c sep then EmptyString :: split sep s'
      else match split sep s' with
           | [] => [String c EmptyString]
           | line :: lines => String c line :: lines
           end
  end.

End Js.

(** ** The binary build script, [scripts/build-binary.ts] (the third of
    the unnamed sources) *)

Module BuildBinary.

Inductive OS : Type := linux | darwin | win32.
Inductive Arch : Type := arm64 | x64.
(** The literal types of [abi?: 'musl'] and [avx2?: false]. *)
Inductive Abi : Type := musl.
Inductive Avx2 : Type := avx2_false.

Record BuildTarget : Type := {
  os : OS;
  arch : Arch;
  abi : option Abi;
  avx2 : option Avx2
}.

Definition osString (o : OS) : string :=
  match o with
  | linux => "linux"
  | darwin => "darwin"
  | win32 => "win32"
  end.

Definition archString (a : Arch) : string :=
  match a with
  | arm64 => "arm64"
  | x64 => "x64"
  end.

Definition abiString (a : Abi) : string :=
  match a with
  | musl => "musl"
  end.

(** Lines 54-70. *)
Definition allTargets : list BuildTarget :=
  [ {| os := linux; arch := arm64; abi := None; avx2 := None |};
    {| os := linux; arch := x64; abi := None; avx2 := None |};
    {| os := linux; arch := x64; abi := None; avx2 := Some avx2_false |};
    {| os := linux; arch := arm64; abi := Some musl; avx2 := None |};
    {| os := linux; arch := x64; abi := Some musl; avx2 := None |};
    {| os := linux; arch := x64; abi := Some musl; avx2 := Some avx2_false |};
    {| os := darwin; arch := arm64; abi := None; avx2 := None |};
    {| os := darwin; arch := x64; abi := None; avx2 := None |};
    {| os := darwin; arch := x64; abi := None; avx2 := Some avx2_false |};
    {| os := win32; arch := x64; abi := None; avx2 := None |};
    {| os := win32; arch := x64; abi := None; avx2 := Some avx2_false |} ].

(** [t.avx2 !== false] *)
Definition avx2NotFalse (t : BuildTarget) : bool :=
  match avx2 t with
  | Some avx2_false => false
  | None => true
  end.

(** [getTargets], lines 73-93.  [platform] and [arch_] are
    [process.platform] and [process.arch], which the script casts to the
    two literal types. *)
Definition getTargets (allFlag baselineFlag : bool) (platform : OS)
    (arch_ : Arch) : list BuildTarget :=
  if allFlag then
    if baselineFlag then allTargets
    else List.filter avx2NotFalse allTargets
  else
    let currentTarget :=
      {| os := platform; arch := arch_; abi := None; avx2 := None |} in
    if baselineFlag then
      [currentTarget;
       {| os := os currentTarget; arch := arch currentTarget;
          abi := abi currentTarget; avx2 := Some avx2_false |}]
    else [currentTarget].

Definition PACKAGE_PREFIX : string := "bun-gemini-cli".

Definition baselinePart (t : BuildTarget) : option string :=
  match avx2 t with
  | Some avx2_false => Some "baseline"
  | None => None
  end.

(** [getPackageName], lines 99-109. *)
Definition getPackageName (target : BuildTarget) : string :=
  let parts :=
    Js.filterBoolean
      [Some PACKAGE_PREFIX;
       Some (match os target with
             | win32 => "windows"
             | o => osString o
             end);
       Some (archString (arch target));
       baselinePart target;
       abiString <$> abi target] in
  Js.join "-" parts.

(** [getBunTarget], lines 112-120. *)
Definition getBunTarget (target : BuildTarget) : string :=
  let parts :=
    Js.filterBoolean
      [Some "bun";
       Some (osString (os target));
       Some (archString (arch target));
       baselinePart target] in
  Js.join "-" parts.

(** A double quote. *)
Definition dq : string := String (Ascii.ascii_of_nat 34) EmptyString.

(** ['import { createRequire } from "module";'] *)
Definition duplicateImport : string :=
  "import { createRequire } from " +:+ dq +:+ "module" +:+ dq +:+ ";".

(** ['const __fdir_createRequire = (await import("module")).createRequire;'] *)
Definition scopedImport : string :=
  "const __fdir_createRequire = (await import(" +:+ dq +:+ "module" +:+ dq
  +:+ ")).createRequire;".

(** The callback of [lines.map] in the post-processing of the bundle,
    lines 161-173. *)
Definition processLine (line : string) (index : nat) : string :=
  if (index <? 2)%nat then line
  else if Js.includes line "import { createRequire }"
  then Js.replace line duplicateImport scopedImport
  else line.

Definition newline : Ascii.ascii := Ascii.ascii_of_nat 10.

(** From the text read from the bundle to the text written back, lines
    158-175. *)
Definition postProcess (bundleContent : string) : string :=
  let lines := Js.split newline bundleContent in
  let processedLines := imap (fun index line => processLine line index) lines in
  Js.join Relaunch.nl processedLines.

End BuildBinary.

(** ** The wrapper build script, [scripts/build-wrapper.ts] *)

Module BuildWrapper.
Import PtyAdapter.

Definition PACKAGE_PREFIX : string := "bun-gemini-cli".

(** Lines 40-52. *)
Definition platformPackages : list string :=
  [PACKAGE_PREFIX +:+ "-darwin-arm64";
   PACKAGE_PREFIX +:+ "-darwin-x64";
   PACKAGE_PREFIX +:+ "-darwin-x64-baseline";
   PACKAGE_PREFIX +:+ "-linux-arm64";
   PACKAGE_PREFIX +:+ "-linux-arm64-musl";
   PACKAGE_PREFIX +:+ "-linux-x64";
   PACKAGE_PREFIX +:+ "-linux-x64-baseline";
   PACKAGE_PREFIX +:+ "-linux-x64-musl";
   PACKAGE_PREFIX +:+ "-linux-x64-musl-baseline";
   PACKAGE_PREFIX +:+ "-windows-x64";
   PACKAGE_PREFIX +:+ "-windows-x64-baseline"].

(** The loop that fills [optionalDependencies], lines 55-58, started from
    the object built so far. *)
Definition addDependencies (version : string) (packages : list string)
    (deps : gmap string string) : gmap string string :=
  foldl (fun deps pkg => <[pkg := version]> deps) deps packages.

Definition optionalDependencies (version : string) : gmap string string :=
  addDependencies version platformPackages ∅.

(** *** The launcher script written to [bin/gemini], lines 93-221 *)

(** A normalized absolute path as the list of its components, innermost
    first, so that [dirname] is the tail and the root, the one path that
    is its own [dirname], is the empty list. *)
Definition Path : Type := list string.

(** [join(dir, name1, ..., namek)] for plain names. *)
Definition joinPath (dir : Path) (names : list string) : Path :=
  rev names ++ dir.

Definition dirname (p : Path) : Path := tail p.

Record FileSystem : Type := {
  existsSync : Path -> bool;
  readdirSync : Path -> Completion (list string)
}.

(** What [run] is called with: the override taken from the environment as
    it is, or a path put together by [findBinary]. *)
Inductive Target : Type :=
| FromEnv (path : string)
| Resolved (path : Path).

(** The fields of the result of [spawnSync] that [run] reads:
    [result.error] (with its message) and [result.status]. *)
Record SpawnSyncResult : Type := {
  error : option string;
  status : option Z
}.

Record Host : Type := {
  argv : list string;
  GEMINI_BIN_PATH : option string;
  osPlatform : string;
  osArch : string;
  lddVersion : Completion string;          (* [execFileSync('ldd', ...)] *)
  libFiles : Completion (list string);     (* [readdirSync('/lib')] *)
  fs : FileSystem;
  scriptDir : Path;            (* [dirname(realpathSync(__filename))] *)
  spawnSync : Target -> list string -> SpawnSyncResult
}.

Inductive Event : Type :=
| SpawnSync (target : Target) (args : list string)
| ConsoleError (text : string)
| ProcessExit (code : Z).

(** [run], lines 115-126. *)
Definition run (host : Host) (target : Target) : list Event :=
  let result := spawnSync host target (drop 2 (argv host)) in
  SpawnSync target (drop 2 (argv host)) ::
  match error result with
  | Some message => [ConsoleError message; ProcessExit 1]
  | None => [ProcessExit (default 0%Z (status result))]
  end.

(** [value || fallback] for a string or [undefined]. *)
Definition orElse (value : option string) (fallback : string) : string :=
  if Relaunch.truthy value then default fallback value else fallback.

(** Own properties of [platformMap] and [archMap], lines 135-144. *)
Definition platformMap (name : string) : option string :=
  if String.eqb name "darwin" then Some "darwin"
  else if String.eqb name "linux" then Some "linux"
  else if String.eqb name "win32" then Some "windows"
  else None.

Definition archMap (name : string) : option string :=
  if String.eqb name "x64" then Some "x64"
  else if String.eqb name "arm64" then Some "arm64"
  else None.

Definition platform (host : Host) : string :=
  orElse (platformMap (osPlatform host)) (osPlatform host).

Definition arch (host : Host) : string :=
  orElse (archMap (osArch host)) (osArch host).

(** The musl check, lines 150-171. *)
Definition suffix (host : Host) : string :=
  if String.eqb (osPlatform host) "linux" then
    match lddVersion host with
    | Normal lddOutput => if Js.includes lddOutput "musl" then "-musl" else ""
    | Throw _ =>
        match libFiles host with
        | Normal files =>
            if existsb (fun f => Js.includes f "musl") files then "-musl"
            else ""
        | Throw _ => ""
        end
    end
  else "".

Definition base (host : Host) : string :=
  PACKAGE_PREFIX +:+ "-" +:+ platform host +:+ "-" +:+ arch host
  +:+ suffix host.

Definition binary (host : Host) : string :=
  if String.eqb (platform host) "windows" then "gemini.exe" else "gemini".

(** The test of the inner loop of [findBinary] on one directory entry. *)
Definition isCandidate (fs_ : FileSystem) (modules : Path)
    (base_ binary_ : string) (entry : string) : bool :=
  (String.eqb entry base_ || String.eqb entry (base_ +:+ "-baseline"))
  && existsSync fs_ (joinPath modules [entry; "bin"; binary_]).

(** One round of the outer loop: the search in [current/node_modules]. *)
Definition searchModules (fs_ : FileSystem) (base_ binary_ : string)
    (current : Path) : Completion (option Path) :=
  let modules := joinPath current ["node_modules"] in
  if existsSync fs_ modules then
    match readdirSync fs_ modules with
    | Normal entries =>
        Normal ((fun entry => joinPath modules [entry; "bin"; binary_])
                  <$> List.find (isCandidate fs_ modules base_ binary_)
                        entries)
    | Throw e => Throw e
    end
  else Normal None.

(** [findBinary], lines 176-198; [None] is [null]. *)
Fixpoint findBinary (fs_ : FileSystem) (base_ binary_ : string)
    (current : Path) : Completion (option Path) :=
  match searchModules fs_ base_ binary_ current with
  | Throw e => Throw e
  | Normal (Some candidate) => Normal (Some candidate)
  | Normal None =>
      match current with
      | [] => Normal None
      | _ :: parent => findBinary fs_ base_ binary_ parent
      end
  end.

Definition notInstalled (base_ : string) : string :=
  "It seems that your package manager failed to install the right version of gemini-cli for your platform."
  +:+ Relaunch.nl
  +:+ "You can try manually installing the " +:+ BuildBinary.dq +:+ base_
  +:+ BuildBinary.dq +:+ " package." +:+ Relaunch.nl +:+ Relaunch.nl
  +:+ "Supported platforms:" +:+ Relaunch.nl
  +:+ "  - macOS (Apple Silicon): " +:+ PACKAGE_PREFIX +:+ "-darwin-arm64"
  +:+ Relaunch.nl
  +:+ "  - macOS (Intel): " +:+ PACKAGE_PREFIX +:+ "-darwin-x64"
  +:+ Relaunch.nl
  +:+ "  - Linux (ARM64): " +:+ PACKAGE_PREFIX +:+ "-linux-arm64"
  +:+ Relaunch.nl
  +:+ "  - Linux (x64): " +:+ PACKAGE_PREFIX +:+ "-linux-x64" +:+ Relaunch.nl
  +:+ "  - Linux (x64 musl): " +:+ PACKAGE_PREFIX +:+ "-linux-x64-musl"
  +:+ Relaunch.nl
  +:+ "  - Windows (x64): " +:+ PACKAGE_PREFIX +:+ "-windows-x64"
  +:+ Relaunch.nl +:+ Relaunch.nl
  +:+ "Please report this issue at https://github.com/google-gemini/gemini-cli/issues".

(** The launcher from top to bottom: the events up to [process.exit], or
    the exception that escapes. *)
Definition launcher (host : Host) : Completion (list Event) :=
  if Relaunch.truthy (GEMINI_BIN_PATH host)
  then Normal (run host (FromEnv (default "" (GEMINI_BIN_PATH host))))
  else
    match findBinary (fs host) (base host) (binary host) (scriptDir host) with
    | Throw e => Throw e
    | Normal None =>
        Normal [ConsoleError (notInstalled (base host)); ProcessExit 1]
    | Normal (Some resolved) => Normal (run host (Resolved resolved))
    end.

End BuildWrapper.

Module LauncherSamples.
Import PtyAdapter BuildWrapper.

(** [/home/u/app/node_modules/bun-gemini-cli/bin], innermost first. *)
Definition installedScriptDir : Path :=
  ["bin"; "bun-gemini-cli"; "node_modules"; "app"; "u"; "home"].

(** A tree in which [/home/u/app/node_modules] holds the wrapper and the
    baseline package for linux-x64. *)
Definition installedFs : FileSystem :=
  {| existsSync := fun p =>
       bool_decide (p = ["node_modules"; "app"; "u"; "home"])
       || bool_decide
            (p = ["gemini"; "bin"; "bun-gemini-cli-linux-x64-baseline";
                  "node_modules"; "app"; "u"; "home"]);
     readdirSync := fun p =>
       if bool_decide (p = ["node_modules"; "app"; "u"; "home"])
       then Normal ["bun-gemini-cli"; "bun-gemini-cli-linux-x64-baseline"]
       else Throw (ThrownValue "ENOENT") |}.

(** The child ends with status 3. *)
Definition statusThree : Target -> list string -> SpawnSyncResult :=
  fun _ _ => {| error := None; status := Some 3%Z |}.

Definition glibcHost : Host :=
  {| argv := ["node"; "gemini"; "--version"];
     GEMINI_BIN_PATH := None;
     osPlatform := "linux";
     osArch := "x64";
     lddVersion := Normal "ldd (GNU libc) 2.39";
     libFiles := Normal [];
     fs := installedFs;
     scriptDir := installedScriptDir;
     spawnSync := statusThree |}.

(** Alpine: [ldd --version] fails, [/lib] holds the musl loader. *)
Definition muslHost : Host :=
  {| argv := ["node"; "gemini"];
     GEMINI_BIN_PATH := None;
     osPlatform := "linux";
     osArch := "x64";
     lddVersion := Throw (ThrownValue "exit status 1");
     libFiles := Normal ["ld-musl-x86_64.so.1"];
     fs := installedFs;
     scriptDir := installedScriptDir;
     spawnSync := statusThree |}.

(** The override is set, and nothing is installed anywhere. *)
Definition overrideHost : Host :=
  {| argv := ["node"; "gemini"; "-p"; "hi"];
     GEMINI_BIN_PATH := Some "/opt/gemini";
     osPlatform := "linux";
     osArch := "x64";
     lddVersion := Throw (ThrownValue "exit status 1");
     libFiles := Throw (ThrownValue "EACCES");
     fs := {| existsSync := fun _ => true;
              readdirSync := fun _ => Throw (ThrownValue "EACCES") |};
     scriptDir := installedScriptDir;
     spawnSync := fun _ _ => {| error := None; status := None |} |}.

End LauncherSamples.

Module LauncherVocabulary.
Import PtyAdapter BuildWrapper.

(** A package directory that [findBinary] accepts in the [node_modules] of
    [dir]: listed there, named [base] or [base-baseline], and holding the
    binary. *)
Definition installed (fs_ : FileSystem) (base_ binary_ : string)
    (dir : Path) (entry : string) : Prop :=
  existsSync fs_ (joinPath dir ["node_modules"]) = true
  /\ (exists entries,
        readdirSync fs_ (joinPath dir ["node_modules"]) = Normal entries
        /\ entry ∈ entries)
  /\ (entry = base_ \/ entry = base_ +:+ "-baseline")
  /\ existsSync fs_ (joinPath dir ["node_modules"; entry; "bin"; binary_])
     = true.

(** The exit code [run] derives from the result of [spawnSync]. *)
Definition exitCodeOf (result : SpawnSyncResult) : Z :=
  match error result with
  | Some _ => 1%Z
  | None => default 0%Z (status result)
  end.

End LauncherVocabulary.

Module BuildBinaryLoop.
Import BuildBinary.

(** From the body of the loop over the targets, lines 198-203. *)
Definition binaryName (target : BuildTarget) : string :=
  match os target with
  | win32 => "gemini.exe"
  | _ => "gemini"
  end.

Definition outputPath (target : BuildTarget) : string :=
  "./dist/" +:+ getPackageName target +:+ "/bin/" +:+ binaryName target.

End BuildBinaryLoop.

(** ** Flags and results of the build scripts *)

Module BuildScripts.
Import BuildBinary.

(** [process.argv.includes(flag)] *)
Definition argvIncludes (argv : list string) (flag : string) : bool :=
  bool_decide (flag ∈ argv).

(** [scripts/build-binary.ts], lines 42-44. *)
Definition allFlag (argv : list string) : bool := argvIncludes argv "--all".
Definition baselineFlag (argv : list string) : bool :=
  argvIncludes argv "--baseline".
Definition skipBundleFlag (argv : list string) : bool :=
  argvIncludes argv "--skip-bundle".

(** The targets that [build-binary.ts] builds when started with [argv]. *)
Definition targets (argv : list string) (platform : OS) (arch_ : Arch)
    : list BuildTarget :=
  getTargets (allFlag argv) (baselineFlag argv) platform arch_.

(** [scripts/build-release.ts], whose text follows [ttyUtils.ts] in the
    same file: lines 70-71 there. *)
Definition singleFlag (argv : list string) : bool :=
  argvIncludes argv "--single".

(** [binaryArgs], lines 81-83 there. *)
Definition binaryArgs (argv : list string) : list string :=
  (if negb (singleFlag argv) then ["--all"] else [])
  ++ (if baselineFlag argv then ["--baseline"] else []).

(** One entry of [results] in [build-binary.ts], line 195. *)
Record Result : Type := {
  success : bool;
  error : option string
}.

(** What the body of [try] in the loop over the targets amounts to for one
    target: it runs through, or it throws an error with some message. *)
Definition Outcome : Type := BuildTarget -> option string.

Definition resultOf (outcome : Outcome) (target : BuildTarget) : Result :=
  match outcome target with
  | None => {| success := true; error := None |}
  | Some errorMessage => {| success := false; error := Some errorMessage |}
  end.

(** The loop over the targets, lines 197-270, as far as [results] goes. *)
Definition buildAll (outcome : Outcome) (targets_ : list BuildTarget)
    (results : gmap string Result) : gmap string Result :=
  foldl (fun results target =>
           <[getPackageName target := resultOf outcome target]> results)
    results targets_.

(** [Object.entries(results).filter(([, r]) => r.success)] and its
    counterpart, lines 274-275. *)
Definition successful (results : gmap string Result)
    : list (string * Result) :=
  List.filter (fun entry => success entry.2) (map_to_list results).

Definition failed (results : gmap string Result) : list (string * Result) :=
  List.filter (fun entry => negb (success entry.2)) (map_to_list results).

(** Whether the summary ends in [process.exit(1)], lines 282-288. *)
Definition exitsWithFailure (results : gmap string Result) : bool :=
  (0 <? length (failed results))%nat.

End BuildScripts.

(** * The relaunch loop *)

Section RelaunchLoop.
Import Relaunch.

Variable RELAUNCH_EXIT_CODE : Z.

(** As long as the runner answers with the sentinel, the loop goes on and
    has called the runner once per iteration. *)
Lemma loop_pending_on_sentinel (K fuel : nat) : forall (runner : Runner) i tr,
  (forall j, j < K -> (runner (i + j)).2 = Resolved RELAUNCH_EXIT_CODE) ->
  fuel <= K ->
  let r := relaunchOnExitCode_from RELAUNCH_EXIT_CODE fuel runner i tr in
  status r = Pending /\
  calls r = i + fuel.
Proof.
  cbv zeta.
  revert K. induction fuel as [|fuel IH]; intros K runner i tr Hsent Hle.
  - simpl. split; [reflexivity | lia].
  - simpl. destruct (runner i) as [evs settled] eqn:Hrun.
    assert (Hi : (runner (i + 0)).2 = Resolved RELAUNCH_EXIT_CODE)
      by (apply Hsent; lia).
    rewrite Nat.add_0_r, Hrun in Hi. simpl in Hi. subst settled.
    rewrite Z.eqb_refl.
    destruct (IH (K - 1) runner (S i) (tr ++ evs)) as [Hst Hcalls].
    + intros j Hj. replace (S i + j) with (i + S j) by lia.
      apply Hsent. lia.
    + lia.
    + split; [exact Hst | rewrite Hcalls; lia].
Qed.

(** After [K] sentinel answers, the first other answer ends the process. *)
Lemma loop_exits_after (K : nat) : forall (runner : Runner) (C : Z) i tr fuel,
  (forall j, j < K -> (runner (i + j)).2 = Resolved RELAUNCH_EXIT_CODE) ->
  (runner (i + K)).2 = Resolved C ->
  C <> RELAUNCH_EXIT_CODE ->
  K < fuel ->
  let r := relaunchOnExitCode_from RELAUNCH_EXIT_CODE fuel runner i tr in
  status r = Exited C /\
  calls r = i + K + 1 /\
  last (trace r) = Some (ProcessExit C).
Proof.
  cbv zeta.
  induction K as [|K IH]; intros runner C i tr fuel Hsent HC Hne Hlt;
    destruct fuel as [|fuel]; try lia; simpl;
    destruct (runner i) as [evs settled] eqn:Hrun.
  - rewrite Nat.add_0_r, Hrun in HC. simpl in HC. subst settled.
    apply Z.eqb_neq in Hne. rewrite Hne. simpl.
    repeat split; [lia |].
    rewrite !app_assoc. apply last_snoc.
  - assert (Hi : (runner (i + 0)).2 = Resolved RELAUNCH_EXIT_CODE)
      by (apply Hsent; lia).
    rewrite Nat.add_0_r, Hrun in Hi. simpl in Hi. subst settled.
    rewrite Z.eqb_refl.
    destruct (IH runner C (S i) (tr ++ evs) fuel) as (Hst & Hcalls & Hlast).
    + intros j Hj. replace (S i + j) with (i + S j) by lia.
      apply Hsent. lia.
    + replace (S i + K) with (i + S K) by lia. exact HC.
    + exact Hne.
    + lia.
    + repeat split; [exact Hst | rewrite Hcalls; lia | exact Hlast].
Qed.

End RelaunchLoop.

(** C1.  A runner that returns the sentinel code exactly [K] times and then
    a code [C] other than the sentinel is invoked exactly [K + 1] times by
    [relaunchOnExitCode], after which the process exits with code [C]: this
    is what every run of more than [K] iterations shows.  Up to then, and
    for ever when the runner never returns anything but the sentinel, the
    loop is still running and no exit has happened. *)
Theorem relaunchOnExitCode_restarts_then_exits
    (RELAUNCH_EXIT_CODE : Z) (runner : Relaunch.Runner) (K : nat) (C : Z) :
  (forall i, i < K -> (runner i).2 = Relaunch.Resolved RELAUNCH_EXIT_CODE) ->
  (runner K).2 = Relaunch.Resolved C ->
  C <> RELAUNCH_EXIT_CODE ->
  (forall fuel, K < fuel ->
     let r := Relaunch.relaunchOnExitCode RELAUNCH_EXIT_CODE fuel runner in
     Relaunch.status r = Relaunch.Exited C /\
     Relaunch.calls r = K + 1 /\
     last (Relaunch.trace r) = Some (Relaunch.ProcessExit C)) /\
  (forall fuel, fuel <= K ->
     let r := Relaunch.relaunchOnExitCode RELAUNCH_EXIT_CODE fuel runner in
     Relaunch.status r = Relaunch.Pending /\ Relaunch.calls r = fuel) /\
  (forall runner' : Relaunch.Runner,
     (forall i, (runner' i).2 = Relaunch.Resolved RELAUNCH_EXIT_CODE) ->
     forall fuel,
       let r := Relaunch.relaunchOnExitCode RELAUNCH_EXIT_CODE fuel runner' in
       Relaunch.status r = Relaunch.Pending /\ Relaunch.calls r = fuel).
Proof.
  intros Hsent HC Hne. unfold Relaunch.relaunchOnExitCode.
  split; [| split].
  - intros fuel Hlt. cbv zeta.
    apply (loop_exits_after RELAUNCH_EXIT_CODE K runner C 0 [] fuel);
      auto.
  - intros fuel Hle. cbv zeta.
    apply (loop_pending_on_sentinel RELAUNCH_EXIT_CODE K fuel runner 0 []);
      auto.
  - intros runner' Hall fuel. cbv zeta.
    apply (loop_pending_on_sentinel RELAUNCH_EXIT_CODE fuel fuel runner' 0 []);
      auto.
Qed.

Lemma relaunchOnExitCode_restarts_then_exits_witness :
  let r := Relaunch.relaunchOnExitCode 199 5 Samples.twiceThenZero in
  Relaunch.status r = Relaunch.Exited 0 /\
  Relaunch.calls r = 2 + 1 /\
  last (Relaunch.trace r) = Some (Relaunch.ProcessExit 0).
Proof.
  refine (proj1 (relaunchOnExitCode_restarts_then_exits
                   199 Samples.twiceThenZero 2 0 _ _ _) 5 _).
  - intros i Hi. unfold Samples.twiceThenZero.
    destruct i as [|[|i]]; [reflexivity | reflexivity | lia].
  - reflexivity.
  - lia.
  - lia.
Defined.

(** * The supervisor around a spawned child *)

Section ChildRunner.
Import Relaunch Protocol.

Variable RELAUNCH_EXIT_CODE : Z.
Variable process : Process.
Variable args : list (option string).
Variable children : nat -> ChildEnd.

(** Any runner that spawns and waits, as both revisions do. *)
Variable runner : Runner.
Hypothesis runner_spawns :
  forall i, runner i = spawnAndWait process args (children i).




(** Every child is spawned with the marker in its environment. *)
Lemma loop_children_marked (fuel : nat) : forall i tr,
  Forall childEnvMarked tr ->
  let r := relaunchOnExitCode_from RELAUNCH_EXIT_CODE fuel runner i tr in
  Forall childEnvMarked (trace r).
Proof.
  cbv zeta.
  assert (Hmark : forall tl, Forall childEnvMarked tl ->
            Forall childEnvMarked
              (StdinPause
               :: Spawn (execPath process) args
                    (<["GEMINI_CLI_NO_RELAUNCH" := "true"]> (env process))
               :: tl)).
  { intros tl Htl. constructor; [exact I |]. constructor; [| exact Htl].
    simpl. apply lookup_insert_eq. }
  induction fuel as [|fuel IH]; intros i tr Htr; [exact Htr |].
  simpl. rewrite runner_spawns. unfold spawnAndWait.
  destruct (children i) as [code | error]; simpl.
  - destruct (default 1%Z code =? RELAUNCH_EXIT_CODE)%Z.
    + apply IH. apply Forall_app. split; [exact Htr |].
      apply Hmark. repeat constructor.
    + simpl. apply Forall_app. split; [exact Htr |].
      apply Hmark. repeat constructor.
  - apply Forall_app. split; [exact Htr |].
    apply Hmark. repeat constructor.
Qed.


(** A child that closes with a [null] code counts as exit code 1, which
    ends the process unless 1 is the sentinel. *)
Lemma loop_child_null (fuel : nat) : forall i tr k,
  RELAUNCH_EXIT_CODE <> 1%Z ->
  i <= k ->
  let r := relaunchOnExitCode_from RELAUNCH_EXIT_CODE fuel runner i tr in
  k < calls r ->
  children k = ChildClose None ->
  status r = Exited 1 /\
  calls r = S k /\
  exists pre,
    trace r = pre ++ [StdinResume; ProcessExit 1].
Proof.
  cbv zeta.
  induction fuel as [|fuel IH]; intros i tr k Hne Hle Hlt Hk;
    [simpl in Hlt; lia |].
  revert Hlt. simpl. rewrite runner_spawns. unfold spawnAndWait.
  destruct (children i) as [code | error'] eqn:Hi; simpl.
  - destruct (default 1%Z code =? RELAUNCH_EXIT_CODE)%Z eqn:Hcode.
    + intros Hlt. apply IH; [exact Hne | | exact Hlt | exact Hk].
      destruct (decide (i = k)) as [-> |]; [| lia].
      rewrite Hk in Hi. injection Hi as <-.
      apply Z.eqb_eq in Hcode. simpl in Hcode. congruence.
    + simpl. intros Hlt. assert (k = i) as -> by lia.
      rewrite Hk in Hi. injection Hi as <-. simpl.
      repeat split. eexists (tr ++ [StdinPause; Spawn _ _ _]).
      rewrite <- app_assoc. reflexivity.
  - intros Hlt. assert (k = i) as -> by lia. congruence.
Qed.

End ChildRunner.

(** Both revisions of the runner spawn and wait. *)
Lemma RevA_runner_spawns process additionalBunArgs additionalScriptArgs
    children :
  exists args, forall i,
    Relaunch.RevA.runner process additionalBunArgs additionalScriptArgs
      children i
    = Relaunch.spawnAndWait process args (children i).
Proof. eexists. intros i. reflexivity. Qed.

Lemma RevB_runner_spawns process additionalBunArgs additionalScriptArgs
    scriptPath children :
  exists args, forall i,
    Relaunch.RevB.runner process additionalBunArgs additionalScriptArgs
      scriptPath children i
    = Relaunch.spawnAndWait process args (children i).
Proof. eexists. intros i. reflexivity. Qed.





(** The same on a Unix binary. *)
Example compiled_unix_binary_inert :
  Relaunch.RevB.relaunchAppInChildProcess 199 5 Samples.compiledUnix
    [] [] Samples.closesWithZero
  = {| Relaunch.status := Relaunch.Returned;
       Relaunch.calls := 0;
       Relaunch.trace := [] |}.
Proof. reflexivity. Qed.

(** The other revision in the file (lines 31-74) has no such return: for a
    compiled binary it leaves the script path out of the child's arguments
    and relaunches all the same. *)
Example RevA_compiled_binary_relaunches :
  let r := Relaunch.RevA.relaunchAppInChildProcess 199 5 Samples.compiledUnix
             [] [] Samples.closesWithZero in
  Relaunch.status r = Relaunch.Exited 0 /\
  Relaunch.calls r = 1 /\
  exists env',
    Relaunch.trace r
    = [Relaunch.StdinPause;
       Relaunch.Spawn "/opt/gemini/bin/gemini" [Some "--debug"] env';
       Relaunch.StdinResume; Relaunch.ProcessExit 0].
Proof. cbv zeta. repeat split. eexists. reflexivity. Qed.

(** C6, as stated, fails when the marker is present with an empty value:
    [process.env['GEMINI_CLI_NO_RELAUNCH']] is then [''], which is falsy, and
    the child is spawned. *)
Lemma empty_marker_still_relaunches :
  let r := Relaunch.RevB.relaunchAppInChildProcess 199 5
             Samples.emptyMarkerProcess [] [] Samples.closesWithZero in
  Relaunch.env Samples.emptyMarkerProcess !! "GEMINI_CLI_NO_RELAUNCH"
  = Some "" /\
  Relaunch.status r = Relaunch.Exited 0 /\
  Relaunch.calls r = 1 /\
  Protocol.stdinView (Relaunch.trace r)
  = [Protocol.Paused; Protocol.ChildSpawned; Protocol.Resumed].
Proof. cbv zeta. repeat split. Qed.

(** C6, amended.  When [GEMINI_CLI_NO_RELAUNCH] is set to a non-empty value
    at process start, [relaunchAppInChildProcess] (either revision) returns
    at once: the runner is never called and no event happens.  And in every
    run, each child that is spawned gets an environment in which the marker
    is ['true']. *)
Theorem relaunchAppInChildProcess_marker
    (RELAUNCH_EXIT_CODE : Z) (fuel : nat) (process : Relaunch.Process)
    (additionalBunArgs additionalScriptArgs : list string)
    (children : nat -> Relaunch.ChildEnd) :
  let rA := Relaunch.RevA.relaunchAppInChildProcess RELAUNCH_EXIT_CODE fuel
              process additionalBunArgs additionalScriptArgs children in
  let rB := Relaunch.RevB.relaunchAppInChildProcess RELAUNCH_EXIT_CODE fuel
              process additionalBunArgs additionalScriptArgs children in
  let untouched :=
    {| Relaunch.status := Relaunch.Returned;
       Relaunch.calls := 0;
       Relaunch.trace := [] |} in
  (forall value,
     Relaunch.env process !! "GEMINI_CLI_NO_RELAUNCH" = Some value ->
     value <> "" ->
     rA = untouched /\ rB = untouched)
  /\ Forall Protocol.childEnvMarked (Relaunch.trace rA)
  /\ Forall Protocol.childEnvMarked (Relaunch.trace rB).
Proof.
  cbv zeta.
  unfold Relaunch.RevA.relaunchAppInChildProcess,
    Relaunch.RevB.relaunchAppInChildProcess, Relaunch.relaunchOnExitCode.
  split; [| split].
  - intros value Hvalue Hne. rewrite Hvalue. simpl.
    apply String.eqb_neq in Hne. rewrite Hne. split; reflexivity.
  - destruct (Relaunch.truthy _); [constructor |].
    destruct (RevA_runner_spawns process additionalBunArgs
                additionalScriptArgs children) as [argsA HA].
    apply (loop_children_marked RELAUNCH_EXIT_CODE process argsA children
             _ HA fuel 0 []).
    constructor.
  - destruct (Relaunch.truthy _); [constructor |].
    destruct (Relaunch.RevB.isCompiledBinary _); [constructor |].
    destruct (RevB_runner_spawns process additionalBunArgs
                additionalScriptArgs (Relaunch.argv process !! 1) children)
      as [argsB HB].
    apply (loop_children_marked RELAUNCH_EXIT_CODE process argsB children
             _ HB fuel 0 []).
    constructor.
Qed.

Lemma relaunchAppInChildProcess_marker_witness :
  Relaunch.RevB.relaunchAppInChildProcess 199 5 Samples.markedProcess
    [] [] Samples.closesWithZero
  = {| Relaunch.status := Relaunch.Returned;
       Relaunch.calls := 0;
       Relaunch.trace := [] |}.
Proof.
  refine (proj2 (proj1 (relaunchAppInChildProcess_marker 199 5
                          Samples.markedProcess [] [] Samples.closesWithZero)
                   "true" _ _)).
  - reflexivity.
  - discriminate.
Defined.

(** C10.  When child [k] closes with a [null] code, the runner (either
    revision) resolves with 1; so, unless 1 is the sentinel, a run in which
    that child was spawned has exited with code 1 right after resuming
    stdin, and that child was the last one. *)
Theorem relaunchAppInChildProcess_null_code_exits_1
    (RELAUNCH_EXIT_CODE : Z) (fuel : nat) (process : Relaunch.Process)
    (additionalBunArgs additionalScriptArgs : list string)
    (children : nat -> Relaunch.ChildEnd) (k : nat) :
  children k = Relaunch.ChildClose None ->
  let rA := Relaunch.RevA.relaunchAppInChildProcess RELAUNCH_EXIT_CODE fuel
              process additionalBunArgs additionalScriptArgs children in
  let rB := Relaunch.RevB.relaunchAppInChildProcess RELAUNCH_EXIT_CODE fuel
              process additionalBunArgs additionalScriptArgs children in
  let exits_with_1 (r : Relaunch.Run) :=
    Relaunch.status r = Relaunch.Exited 1 /\
    Relaunch.calls r = S k /\
    exists pre,
      Relaunch.trace r
      = pre ++ [Relaunch.StdinResume; Relaunch.ProcessExit 1] in
  (Relaunch.RevA.runner process additionalBunArgs additionalScriptArgs
     children k).2 = Relaunch.Resolved 1
  /\ (Relaunch.RevB.runner process additionalBunArgs additionalScriptArgs
        (Relaunch.argv process !! 1) children k).2 = Relaunch.Resolved 1
  /\ (RELAUNCH_EXIT_CODE <> 1%Z ->
      (k < Relaunch.calls rA -> exits_with_1 rA) /\
      (k < Relaunch.calls rB -> exits_with_1 rB)).
Proof.
  intros Hk. cbv zeta.
  unfold Relaunch.RevA.runner, Relaunch.RevB.runner, Relaunch.spawnAndWait.
  rewrite Hk. split; [reflexivity |]. split; [reflexivity |].
  intros Hne.
  unfold Relaunch.RevA.relaunchAppInChildProcess,
    Relaunch.RevB.relaunchAppInChildProcess, Relaunch.relaunchOnExitCode.
  destruct (Relaunch.truthy _); simpl; [split; intros; lia |].
  split.
  - destruct (RevA_runner_spawns process additionalBunArgs
                additionalScriptArgs children) as [argsA HA].
    intros Hlt.
    apply (loop_child_null RELAUNCH_EXIT_CODE process argsA children
             _ HA fuel 0 [] k Hne (Nat.le_0_l k) Hlt Hk).
  - destruct (Relaunch.RevB.isCompiledBinary _); simpl; [intros; lia |].
    destruct (RevB_runner_spawns process additionalBunArgs
                additionalScriptArgs (Relaunch.argv process !! 1) children)
      as [argsB HB].
    intros Hlt.
    apply (loop_child_null RELAUNCH_EXIT_CODE process argsB children
             _ HB fuel 0 [] k Hne (Nat.le_0_l k) Hlt Hk).
Qed.

Lemma relaunchAppInChildProcess_null_code_exits_1_witness :
  let r := Relaunch.RevB.relaunchAppInChildProcess 199 5 Samples.devProcess
             [] [] Samples.relaunchThenSignal in
  Relaunch.status r = Relaunch.Exited 1 /\ Relaunch.calls r = 2.
Proof.
  pose proof (relaunchAppInChildProcess_null_code_exits_1 199 5
                Samples.devProcess [] [] Samples.relaunchThenSignal 1
                eq_refl) as H.
  cbv zeta in H. destruct H as (_ & _ & H).
  destruct H as [_ HB]; [lia |].
  destruct HB as (Hst & Hcalls & _); [vm_compute; lia |].
  cbv zeta. split; [exact Hst | exact Hcalls].
Defined.

(** * The PTY adapter *)

Section CleanEnv.
Import PtyAdapter.

Lemma define_keys (o : JsObject) key value :
  ((define o key value).*1 = o.*1) \/
  ((key ∉ o.*1) /\ (define o key value).*1 = o.*1 ++ [key]).
Proof.
  induction o as [|[k x] o IH].
  - right. split; [apply not_elem_of_nil | reflexivity].
  - cbn [define]. destruct (String.eqb_spec k key) as [-> | Hne].
    + left. reflexivity.
    + rewrite !fmap_cons. cbn [fst].
      destruct IH as [IH | [Hnotin IH]]; rewrite IH;
        [left; reflexivity |].
      right. split; [| reflexivity].
      intros Hin%elem_of_cons. destruct Hin; [congruence | done].
Qed.

Lemma define_NoDup (o : JsObject) key value :
  NoDup o.*1 -> NoDup (define o key value).*1.
Proof.
  intros Hnd. destruct (define_keys o key value) as [-> | [Hnotin ->]];
    [exact Hnd |].
  apply NoDup_app. split; [exact Hnd |]. split.
  - intros k Hk Hk'%list_elem_of_singleton. subst k. done.
  - apply NoDup_singleton.
Qed.

Lemma define_elem_of (o : JsObject) key value kv :
  kv ∈ define o key value -> kv = (key, value) \/ kv ∈ o.
Proof.
  induction o as [|[k x] o IH]; simpl.
  - intros Hin%list_elem_of_singleton. left. exact Hin.
  - destruct (String.eqb_spec k key) as [-> | Hne].
    + intros [-> | Hin]%elem_of_cons; [left; reflexivity |].
      right. apply elem_of_cons. right. exact Hin.
    + intros [-> | Hin]%elem_of_cons.
      * right. apply elem_of_cons. left. reflexivity.
      * destruct (IH Hin) as [-> | Hin']; [left; reflexivity |].
        right. apply elem_of_cons. right. exact Hin'.
Qed.

Lemma define_key_in (o : JsObject) key value :
  key ∈ (define o key value).*1.
Proof.
  induction o as [|[k x] o IH]; simpl.
  - apply elem_of_cons. left. reflexivity.
  - destruct (String.eqb_spec k key) as [-> | Hne]; simpl;
      apply elem_of_cons; [left; reflexivity | right; exact IH].
Qed.

Lemma define_keys_mono (o : JsObject) key value k :
  k ∈ o.*1 -> k ∈ (define o key value).*1.
Proof.
  intros Hk. destruct (define_keys o key value) as [-> | [_ ->]];
    [exact Hk |].
  apply elem_of_app. left. exact Hk.
Qed.

Lemma assign_NoDup (o : JsObject) key value :
  NoDup o.*1 -> NoDup (assign o key value).*1.
Proof.
  unfold assign. destruct (String.eqb key "__proto__"); [done |].
  apply define_NoDup.
Qed.

Lemma assign_elem_of (o : JsObject) key value kv :
  kv ∈ assign o key value -> kv = (key, value) \/ kv ∈ o.
Proof.
  unfold assign. destruct (String.eqb key "__proto__"); [by right |].
  apply define_elem_of.
Qed.

Lemma assign_keys_mono (o : JsObject) key value k :
  k ∈ o.*1 -> k ∈ (assign o key value).*1.
Proof.
  unfold assign. destruct (String.eqb key "__proto__"); [done |].
  apply define_keys_mono.
Qed.

(** The loop never creates a second property of the same name. *)
Lemma cleanEntries_NoDup (entries : list (string * JsValue)) :
  forall cleanEnv,
    NoDup cleanEnv.*1 -> NoDup (cleanEntries entries cleanEnv).*1.
Proof.
  induction entries as [|[key value] rest IH]; intros cleanEnv Hnd;
    [exact Hnd |].
  simpl. destruct (isPresent value); apply IH; [| exact Hnd].
  apply assign_NoDup. exact Hnd.
Qed.

(** Whatever the loop adds is the string form of an entry that is neither
    [undefined] nor [null]. *)
Lemma cleanEntries_origin (entries : list (string * JsValue)) :
  forall cleanEnv key value,
    (key, value) ∈ cleanEntries entries cleanEnv ->
    (key, value) ∈ cleanEnv \/
    exists x, (key, x) ∈ entries /\ isPresent x = true
              /\ value = JsString (String_ x).
Proof.
  induction entries as [|[k x] rest IH]; intros cleanEnv key value Hin;
    [left; exact Hin |].
  simpl in Hin. destruct (isPresent x) eqn:Hx.
  - destruct (IH _ _ _ Hin) as [Hacc | (y & Hy & Hpres & ->)].
    + destruct (assign_elem_of _ _ _ _ Hacc) as [Heq | Hold];
        [| left; exact Hold].
      injection Heq as -> ->. right. exists x.
      split; [apply elem_of_cons; left; reflexivity | done].
    + right. exists y. split; [apply elem_of_cons; right; exact Hy | done].
  - destruct (IH _ _ _ Hin) as [Hacc | (y & Hy & Hpres & ->)];
      [left; exact Hacc |].
    right. exists y. split; [apply elem_of_cons; right; exact Hy | done].
Qed.

Lemma cleanEntries_keys_mono (entries : list (string * JsValue)) :
  forall cleanEnv k,
    k ∈ cleanEnv.*1 -> k ∈ (cleanEntries entries cleanEnv).*1.
Proof.
  induction entries as [|[key value] rest IH]; intros cleanEnv k Hk;
    [exact Hk |].
  simpl. destruct (isPresent value); apply IH; [| exact Hk].
  apply assign_keys_mono. exact Hk.
Qed.

(** Every entry with a value, under any name but [__proto__], is kept. *)
Lemma cleanEntries_keeps (entries : list (string * JsValue)) :
  forall cleanEnv key x,
    (key, x) ∈ entries -> isPresent x = true -> key <> "__proto__" ->
    key ∈ (cleanEntries entries cleanEnv).*1.
Proof.
  induction entries as [|[k y] rest IH]; intros cleanEnv key x Hin Hx Hne.
  - by apply elem_of_nil in Hin.
  - apply elem_of_cons in Hin. destruct Hin as [Heq | Hin].
    + injection Heq as <- <-. simpl. rewrite Hx.
      apply cleanEntries_keys_mono. unfold assign.
      apply String.eqb_neq in Hne. rewrite Hne. apply define_key_in.
    + simpl. destruct (isPresent y); eapply IH; eauto.
Qed.

End CleanEnv.

Lemma unique_key_value {A B : Type} (l : list (A * B)) k x y :
  NoDup l.*1 -> (k, x) ∈ l -> (k, y) ∈ l -> x = y.
Proof.
  induction l as [|[k' z] l IH]; intros Hnd Hx Hy.
  - by apply elem_of_nil in Hx.
  - rewrite fmap_cons in Hnd. apply NoDup_cons in Hnd as [Hnotin Hnd].
    apply elem_of_cons in Hx. apply elem_of_cons in Hy.
    destruct Hx as [Hx | Hx], Hy as [Hy | Hy].
    + congruence.
    + injection Hx as -> ->. exfalso. apply Hnotin.
      apply list_elem_of_fmap. exists (k', y). done.
    + injection Hy as -> ->. exfalso. apply Hnotin.
      apply list_elem_of_fmap. exists (k', x). done.
    + by apply IH.
Qed.

(** C5.  Whatever environment mapping the options carry, the [env] handed
    to bun-pty's [spawn] holds string values only and no key twice; each of
    its entries is the [String(...)] of an entry of the given mapping whose
    value is neither [undefined] nor [null]; an entry whose value is
    [undefined] or [null] is dropped, and every other entry is kept (the one
    name [__proto__] apart, which assignment to [{}] cannot create). *)
Theorem spawn_env_sanitized {R : Type} (spawn_ : PtyAdapter.BunPtySpawn)
    (command : string) (args : list string)
    (options : PtyAdapter.PtySpawnOptions) :
  let handedEnv :=
    PtyAdapter.fork_env
      (PtyAdapter.handed (R := R)
         (PtyAdapter.spawn spawn_ command args options)).2 in
  Forall Protocol.isString handedEnv
  /\ NoDup handedEnv.*1
  /\ (forall key value, (key, value) ∈ handedEnv ->
        exists e x, PtyAdapter.env options = Some e
                    /\ (key, x) ∈ PtyAdapter.Object_entries e
                    /\ x <> PtyAdapter.JsUndefined /\ x <> PtyAdapter.JsNull
                    /\ value = PtyAdapter.JsString (PtyAdapter.String_ x))
  /\ (forall e key x,
        PtyAdapter.env options = Some e -> NoDup e.*1 ->
        (key, x) ∈ PtyAdapter.Object_entries e ->
        x = PtyAdapter.JsUndefined \/ x = PtyAdapter.JsNull ->
        key ∉ handedEnv.*1)
  /\ (forall e key x,
        PtyAdapter.env options = Some e ->
        (key, x) ∈ PtyAdapter.Object_entries e ->
        x <> PtyAdapter.JsUndefined -> x <> PtyAdapter.JsNull ->
        key <> "__proto__" ->
        key ∈ handedEnv.*1).
Proof.
  cbv zeta. unfold PtyAdapter.spawn, PtyAdapter.Object_entries. simpl.
  assert (Hpresent : forall x, PtyAdapter.isPresent x = true <->
            x <> PtyAdapter.JsUndefined /\ x <> PtyAdapter.JsNull).
  { intros []; simpl; split; try done; intros []; done. }
  assert (Horigin : forall key value,
            (key, value) ∈ match PtyAdapter.env options with
                           | Some e => PtyAdapter.cleanEntries e []
                           | None => []
                           end ->
            exists e x, PtyAdapter.env options = Some e /\ (key, x) ∈ e
                        /\ PtyAdapter.isPresent x = true
                        /\ value = PtyAdapter.JsString (PtyAdapter.String_ x)).
  { intros key value Hin. destruct (PtyAdapter.env options) as [e|];
      [| by apply elem_of_nil in Hin].
    apply cleanEntries_origin in Hin as [Hin | (x & Hx & Hpres & ->)];
      [by apply elem_of_nil in Hin |].
    exists e, x. done. }
  split; [| split; [| split; [| split]]].
  - apply Forall_forall. intros [key value] Hin.
    destruct (Horigin key value Hin) as (e & x & _ & _ & _ & ->).
    eexists. reflexivity.
  - destruct (PtyAdapter.env options) as [e|]; [| constructor].
    apply cleanEntries_NoDup. constructor.
  - intros key value Hin.
    destruct (Horigin key value Hin) as (e & x & He & Hx & Hpres & ->).
    apply Hpresent in Hpres as [? ?]. exists e, x. done.
  - intros e key x He Hnd Hx Hnull Hin.
    apply list_elem_of_fmap in Hin as ([key' value] & Hkey & Hin).
    simpl in Hkey. subst key'.
    destruct (Horigin key value Hin) as (e' & y & He' & Hy & Hpres & _).
    rewrite He in He'. injection He' as <-.
    assert (x = y) as <- by (eapply unique_key_value; eauto).
    apply Hpresent in Hpres as [? ?]. destruct Hnull; done.
  - intros e key x He Hx Hundef Hnull Hne. rewrite He.
    eapply cleanEntries_keeps; eauto. apply Hpresent. done.
Qed.

Lemma spawn_env_sanitized_witness :
  let handedEnv :=
    PtyAdapter.fork_env
      (PtyAdapter.handed (R := unit)
         (PtyAdapter.spawn PtySamples.fakeSpawn "sh" []
            PtySamples.holedOptions)).2 in
  ("EDITOR" ∉ handedEnv.*1) /\ ("CI" ∈ handedEnv.*1).
Proof.
  pose proof (spawn_env_sanitized (R := unit) PtySamples.fakeSpawn "sh" []
                PtySamples.holedOptions) as H.
  cbv zeta in H. destruct H as (_ & _ & _ & Hdropped & Hkept).
  cbv zeta. split.
  - apply (Hdropped PtySamples.holedEnv "EDITOR" PtyAdapter.JsUndefined).
    + reflexivity.
    + apply (bool_decide_unpack _). vm_compute. exact I.
    + apply list_elem_of_further, list_elem_of_here.
    + left. reflexivity.
  - apply (Hkept PtySamples.holedEnv "CI" (PtyAdapter.JsBoolean true)).
    + reflexivity.
    + do 3 apply list_elem_of_further. apply list_elem_of_here.
    + discriminate.
    + discriminate.
    + discriminate.
Defined.

(** What bun-pty receives for a mapping with holes. *)
Example holed_env_handed_on :
  PtyAdapter.fork_env
    (PtyAdapter.handed (R := unit)
       (PtyAdapter.spawn PtySamples.fakeSpawn "sh" []
          PtySamples.holedOptions)).2
  = [("PATH", PtyAdapter.JsString "/usr/bin");
     ("CI", PtyAdapter.JsString "true")].
Proof. reflexivity. Qed.

(** C7 does not hold of the code: [spawn] never reads
    [options.handleFlowControl], although [PtySpawnOptions] documents it as
    "Enable flow control (XON/XOFF)".  Two option objects that differ in that
    flag only give the same call of bun-pty and the same instance, and
    [write] passes its data straight on: nothing is queued, suspended or
    flushed by the adapter. *)
Theorem spawn_ignores_handleFlowControl {R : Type}
    (spawn_ : PtyAdapter.BunPtySpawn) (command : string) (args : list string)
    (name : option string) (cols rows : option Z) (cwd : option string)
    (env : option PtyAdapter.JsObject) (flag flag' : option bool) :
  let spawnWith f :=
    PtyAdapter.spawn (R := R) spawn_ command args
      {| PtyAdapter.name := name; PtyAdapter.cols := cols;
         PtyAdapter.rows := rows; PtyAdapter.cwd := cwd;
         PtyAdapter.env := env; PtyAdapter.handleFlowControl := f |} in
  spawnWith flag = spawnWith flag'
  /\ forall data,
       PtyAdapter.write (PtyAdapter.instance (spawnWith flag)) data
       = PtyAdapter.PtyWrite data.
Proof. cbv zeta. split; [reflexivity | intros data; reflexivity]. Qed.

(** With [handleFlowControl: true], bun-pty is handed the terminal name,
    the size, the working directory and the environment, and no flag. *)
Example spawn_with_flow_control :
  PtyAdapter.handed (R := unit)
    (PtyAdapter.spawn PtySamples.fakeSpawn "cat" []
       PtySamples.flowControlOptions)
  = ("cat", [],
     {| PtyAdapter.fork_name := "xterm-256color";
        PtyAdapter.fork_cols := 80; PtyAdapter.fork_rows := 24;
        PtyAdapter.fork_cwd := None; PtyAdapter.fork_env := [] |})
  /\ PtyAdapter.spawn (R := unit) PtySamples.fakeSpawn "cat" []
       PtySamples.flowControlOptions
     = PtyAdapter.spawn PtySamples.fakeSpawn "cat" [] PtySamples.plainOptions.
Proof. split; reflexivity. Qed.



(** C9 does not hold of the code: [PtyInstance] declares
    [kill(signal?: string)], but the method takes no account of its
    argument.  Whatever signal the caller names, bun-pty's [kill] is called
    without one. *)
Theorem kill_drops_signal {R : Type}
    (spawn_ : PtyAdapter.BunPtySpawn) (command : string) (args : list string)
    (options : PtyAdapter.PtySpawnOptions) (signal : option string) :
  PtyAdapter.kill (R := R)
    (PtyAdapter.instance (PtyAdapter.spawn spawn_ command args options))
    signal
  = PtyAdapter.PtyKill None.
Proof. reflexivity. Qed.

(** [pty.kill('SIGKILL')] reaches the backend as [kill()]. *)
Example kill_sigkill :
  PtyAdapter.kill (R := unit)
    (PtyAdapter.instance
       (PtyAdapter.spawn PtySamples.fakeSpawn "sleep" ["60"]
          PtySamples.plainOptions))
    (Some "SIGKILL")
  = PtyAdapter.PtyKill None.
Proof. reflexivity. Qed.

(** C3, as stated, fails: under Node.js the selector answers [null] and the
    debug log stays empty. *)
Lemma createPtyAdapter_silent_without_bun :
  PtyAdapter.createPtyAdapter (R := unit) PtySamples.nodeHost
    PtySamples.freshModule
  = (PtyAdapter.Normal None, PtySamples.freshModule)
  /\ PtyAdapter.debugLog PtySamples.freshModule = [].
Proof. split; reflexivity. Qed.

(** C3, amended.  [createPtyAdapter] never throws.  Outside Bun it returns
    [null] and records nothing.  Under Bun, when the adapter cannot be
    built (nothing is cached and the import of bun-pty throws), the
    exception is caught, one debug entry with that error is recorded and
    [null] is returned; otherwise the bun-pty adapter is returned, nothing
    is recorded and the resolved [spawn] stays cached. *)
Theorem createPtyAdapter_never_throws {R : Type} (host : PtyAdapter.Host)
    (st : PtyAdapter.ModuleState) :
  let adapterOf f : PtyAdapter.PtyAdapter R :=
    {| PtyAdapter.backend := "bun-pty";
       PtyAdapter.adapter_spawn := PtyAdapter.spawn f |} in
  (exists result st',
     PtyAdapter.createPtyAdapter (R := R) host st
     = (PtyAdapter.Normal result, st'))
  /\ (PtyAdapter.isBun host = false ->
      PtyAdapter.createPtyAdapter (R := R) host st
      = (PtyAdapter.Normal None, st))
  /\ (forall e,
        PtyAdapter.isBun host = true ->
        PtyAdapter.bunPtySpawn st = None ->
        PtyAdapter.importBunPty host = inr e ->
        PtyAdapter.createPtyAdapter (R := R) host st
        = (PtyAdapter.Normal None,
           {| PtyAdapter.bunPtySpawn := None;
              PtyAdapter.debugLog :=
                PtyAdapter.debugLog st
                ++ [("Failed to create bun-pty adapter:", e)] |}))
  /\ (forall f,
        PtyAdapter.isBun host = true ->
        PtyAdapter.bunPtySpawn st = Some f
        \/ (PtyAdapter.bunPtySpawn st = None
            /\ PtyAdapter.importBunPty host = inl f) ->
        PtyAdapter.createPtyAdapter (R := R) host st
        = (PtyAdapter.Normal (Some (adapterOf f)),
           {| PtyAdapter.bunPtySpawn := Some f;
              PtyAdapter.debugLog := PtyAdapter.debugLog st |})).
Proof.
  cbv zeta. destruct st as [cache log], host as [bun import].
  unfold PtyAdapter.createPtyAdapter, PtyAdapter.createBunPtyAdapter,
    PtyAdapter.tryCatch, PtyAdapter.bind, PtyAdapter.readCache,
    PtyAdapter.writeCache, PtyAdapter.ret, PtyAdapter.throw,
    PtyAdapter.debugLogger_debug.
  simpl. split; [| split; [| split]].
  - destruct bun; simpl; [| eauto].
    destruct cache as [f|]; simpl; [eauto |].
    destruct import as [f | e]; simpl; eauto.
  - intros ->. reflexivity.
  - intros e -> -> ->. reflexivity.
  - intros f -> [-> | [-> ->]]; reflexivity.
Qed.

Lemma createPtyAdapter_never_throws_witness :
  PtyAdapter.createPtyAdapter (R := unit) PtySamples.bunHostWithoutPty
    PtySamples.freshModule
  = (PtyAdapter.Normal None,
     {| PtyAdapter.bunPtySpawn := None;
        PtyAdapter.debugLog :=
          [("Failed to create bun-pty adapter:", PtySamples.loadFailure)] |}).
Proof.
  refine (proj1 (proj2 (proj2 (createPtyAdapter_never_throws (R := unit)
                                 PtySamples.bunHostWithoutPty
                                 PtySamples.freshModule)))
            PtySamples.loadFailure _ _ _); reflexivity.
Defined.

(** * Further properties of the relaunch supervisor *)

Section RelaunchLoopMore.
Import Relaunch.

Variable RELAUNCH_EXIT_CODE : Z.


(** After [K] sentinel answers, a rejection ends the process with code 1. *)
Lemma loop_rejected_after (K : nat) : forall (runner : Runner) error i tr fuel,
  (forall j, j < K -> (runner (i + j)).2 = Resolved RELAUNCH_EXIT_CODE) ->
  (runner (i + K)).2 = Rejected error ->
  K < fuel ->
  let r := relaunchOnExitCode_from RELAUNCH_EXIT_CODE fuel runner i tr in
  status r = Exited 1 /\
  calls r = i + K + 1 /\
  exists pre,
    trace r
    = pre ++ [StdinResume;
              WriteToStderr
                ("Fatal error: Failed to relaunch the CLI process."
                 +:+ nl +:+ errorMessage error +:+ nl);
              ProcessExit 1].
Proof.
  cbv zeta.
  induction K as [|K IH]; intros runner error i tr fuel Hsent Hrej Hlt;
    destruct fuel as [|fuel]; try lia; simpl;
    destruct (runner i) as [evs settled] eqn:Hrun.
  - rewrite Nat.add_0_r, Hrun in Hrej. simpl in Hrej. subst settled.
    split; [reflexivity |]. split; [simpl; lia |]. exists (tr ++ evs).
    simpl. rewrite <- app_assoc. reflexivity.
  - assert (Hi : (runner (i + 0)).2 = Resolved RELAUNCH_EXIT_CODE)
      by (apply Hsent; lia).
    rewrite Nat.add_0_r, Hrun in Hi. simpl in Hi. subst settled.
    rewrite Z.eqb_refl.
    destruct (IH runner error (S i) (tr ++ evs) fuel)
      as (Hst & Hcalls & Htrace).
    + intros j Hj. replace (S i + j) with (i + S j) by lia.
      apply Hsent. lia.
    + replace (S i + K) with (i + S K) by lia. exact Hrej.
    + lia.
    + split; [exact Hst |]. split; [rewrite Hcalls; lia | exact Htrace].
Qed.

End RelaunchLoopMore.

(** X1.  When the runner, after returning the sentinel [K] times, rejects
    (or throws), [relaunchOnExitCode] does not call it again: it resumes
    stdin, writes "Fatal error: Failed to relaunch the CLI process." with
    the error's stack (or message, or string form) to stderr and exits with
    code 1, whatever the sentinel is. *)
Theorem relaunchOnExitCode_rejection_is_fatal
    (RELAUNCH_EXIT_CODE : Z) (runner : Relaunch.Runner) (K : nat)
    (error : JsError) (fuel : nat) :
  (forall i, i < K -> (runner i).2 = Relaunch.Resolved RELAUNCH_EXIT_CODE) ->
  (runner K).2 = Relaunch.Rejected error ->
  K < fuel ->
  let r := Relaunch.relaunchOnExitCode RELAUNCH_EXIT_CODE fuel runner in
  Relaunch.status r = Relaunch.Exited 1 /\
  Relaunch.calls r = K + 1 /\
  exists pre,
    Relaunch.trace r
    = pre ++ [Relaunch.StdinResume;
              Relaunch.WriteToStderr
                ("Fatal error: Failed to relaunch the CLI process."
                 +:+ Relaunch.nl +:+ Relaunch.errorMessage error
                 +:+ Relaunch.nl);
              Relaunch.ProcessExit 1].
Proof.
  intros Hsent Hrej Hlt.
  apply (loop_rejected_after RELAUNCH_EXIT_CODE K runner error 0 [] fuel);
    auto.
Qed.


Lemma relaunchOnExitCode_rejection_is_fatal_witness :
  let r := Relaunch.relaunchOnExitCode 199 5 MoreSamples.twiceThenReject in
  Relaunch.status r = Relaunch.Exited 1 /\ Relaunch.calls r = 2 + 1.
Proof.
  destruct (relaunchOnExitCode_rejection_is_fatal 199
              MoreSamples.twiceThenReject 2 MoreSamples.boom 5)
    as (Hst & Hcalls & _).
  - intros i Hi. unfold MoreSamples.twiceThenReject.
    destruct i as [|[|i]]; [reflexivity | reflexivity | lia].
  - reflexivity.
  - lia.
  - split; [exact Hst | exact Hcalls].
Defined.


Section ChildRunnerMore.
Import Relaunch Vocabulary.

Variable RELAUNCH_EXIT_CODE : Z.
Variable process : Process.
Variable args : list (option string).
Variable children : nat -> ChildEnd.
Variable runner : Runner.
Hypothesis runner_spawns :
  forall i, runner i = spawnAndWait process args (children i).

(** Two runners that agree call by call give the same run. *)
Lemma loop_ext (fuel : nat) : forall (r1 r2 : Runner) i tr,
  (forall j, r1 j = r2 j) ->
  relaunchOnExitCode_from RELAUNCH_EXIT_CODE fuel r1 i tr
  = relaunchOnExitCode_from RELAUNCH_EXIT_CODE fuel r2 i tr.
Proof.
  induction fuel as [|fuel IH]; intros r1 r2 i tr Heq; [reflexivity |].
  simpl. rewrite Heq. destruct (r2 i) as [evs [exitCode | error]];
    [| reflexivity].
  destruct (exitCode =? RELAUNCH_EXIT_CODE)%Z; [| reflexivity].
  apply IH. exact Heq.
Qed.

(** Every child is started from the parent's executable, with the same
    arguments and the parent's environment plus the marker. *)
Lemma loop_started_as (fuel : nat) : forall i tr,
  let good :=
    startedAs (execPath process) args
      (<["GEMINI_CLI_NO_RELAUNCH" := "true"]> (env process)) in
  Forall good tr ->
  Forall good (trace (relaunchOnExitCode_from RELAUNCH_EXIT_CODE fuel
                        runner i tr)).
Proof.
  cbv zeta.
  induction fuel as [|fuel IH]; intros i tr Htr; [exact Htr |].
  simpl. rewrite runner_spawns. unfold spawnAndWait.
  destruct (children i) as [code | error]; simpl.
  - destruct (default 1%Z code =? RELAUNCH_EXIT_CODE)%Z.
    + apply IH. apply Forall_app. split; [exact Htr |].
      repeat constructor.
    + simpl. apply Forall_app. split; [exact Htr |]. repeat constructor.
  - apply Forall_app. split; [exact Htr |]. repeat constructor.
Qed.


(** [process.exit] is called at most once, and nothing follows it. *)
Lemma loop_exit_events (fuel : nat) : forall i tr,
  List.filter isExit tr = [] ->
  let r := relaunchOnExitCode_from RELAUNCH_EXIT_CODE fuel runner i tr in
  match status r with
  | Exited code =>
      exists pre, trace r = pre ++ [ProcessExit code]
                  /\ List.filter isExit pre = []
  | _ => List.filter isExit (trace r) = []
  end.
Proof.
  cbv zeta.
  induction fuel as [|fuel IH]; intros i tr Htr; [exact Htr |].
  simpl. rewrite runner_spawns. unfold spawnAndWait.
  destruct (children i) as [code | error]; simpl.
  - destruct (default 1%Z code =? RELAUNCH_EXIT_CODE)%Z.
    + apply IH. rewrite List.filter_app, Htr. reflexivity.
    + simpl. exists (tr ++ [StdinPause; Spawn (execPath process) args
                              (<["GEMINI_CLI_NO_RELAUNCH" := "true"]>
                                 (env process)); StdinResume]).
      split; [rewrite <- app_assoc; reflexivity |].
      rewrite List.filter_app, Htr. reflexivity.
  - eexists (tr ++ [StdinPause; Spawn _ _ _; StdinResume; WriteToStderr _]).
    split; [rewrite <- app_assoc; reflexivity |].
    rewrite List.filter_app, Htr. reflexivity.
Qed.

End ChildRunnerMore.

(** The argument lists of the two revisions, as their runners build them. *)
Lemma RevA_runner_args process additionalBunArgs additionalScriptArgs
    children i :
  Relaunch.RevA.runner process additionalBunArgs additionalScriptArgs
    children i
  = Relaunch.spawnAndWait process
      ((Some <$> additionalBunArgs)
       ++ (if Relaunch.startsWith (Relaunch.argv process !! 1) "/$bunfs/"
           then [] else [Relaunch.argv process !! 1])
       ++ (Some <$> additionalScriptArgs)
       ++ (Some <$> drop 2 (Relaunch.argv process)))
      (children i).
Proof. reflexivity. Qed.

Lemma RevB_runner_args process additionalBunArgs additionalScriptArgs
    scriptPath children i :
  Relaunch.RevB.runner process additionalBunArgs additionalScriptArgs
    scriptPath children i
  = Relaunch.spawnAndWait process
      ((Some <$> additionalBunArgs) ++ [scriptPath]
       ++ (Some <$> additionalScriptArgs)
       ++ (Some <$> drop 2 (Relaunch.argv process)))
      (children i).
Proof. reflexivity. Qed.

(** X3.  In the revision with the early return, a process started as
    [exe script rest...] starts every child from its own executable, with
    the extra runtime arguments first, then the script, the extra script
    arguments and the original arguments; the child's environment has the
    marker set to ['true'] and every other variable as in the parent. *)
Theorem relaunchAppInChildProcess_child_invocation
    (RELAUNCH_EXIT_CODE : Z) (fuel : nat) (process : Relaunch.Process)
    (additionalBunArgs additionalScriptArgs : list string)
    (children : nat -> Relaunch.ChildEnd)
    (exe script : string) (rest : list string) :
  Relaunch.argv process = exe :: script :: rest ->
  forall x a env',
    Relaunch.Spawn x a env'
    ∈ Relaunch.trace
        (Relaunch.RevB.relaunchAppInChildProcess RELAUNCH_EXIT_CODE fuel
           process additionalBunArgs additionalScriptArgs children) ->
    x = Relaunch.execPath process
    /\ a = Some <$> (additionalBunArgs ++ script :: additionalScriptArgs
                     ++ rest)
    /\ env' !! "GEMINI_CLI_NO_RELAUNCH" = Some "true"
    /\ forall key, key <> "GEMINI_CLI_NO_RELAUNCH" ->
         env' !! key = Relaunch.env process !! key.
Proof.
  intros Hargv x a env' Hin.
  unfold Relaunch.RevB.relaunchAppInChildProcess,
    Relaunch.relaunchOnExitCode in Hin.
  destruct (Relaunch.truthy _); [by apply elem_of_nil in Hin |].
  destruct (Relaunch.RevB.isCompiledBinary _); [by apply elem_of_nil in Hin |].
  pose proof (loop_started_as RELAUNCH_EXIT_CODE process _ children _
                (RevB_runner_args process additionalBunArgs
                   additionalScriptArgs (Relaunch.argv process !! 1)
                   children)
                fuel 0 [] (Forall_nil_2 _)) as Hall.
  cbv zeta in Hall. rewrite Forall_forall in Hall.
  destruct (Hall _ Hin) as (-> & -> & ->).
  split; [reflexivity |]. split.
  - rewrite Hargv. simpl. rewrite !fmap_app, fmap_cons, fmap_app.
    reflexivity.
  - split; [apply lookup_insert_eq |].
    intros key Hkey. apply lookup_insert_ne. congruence.
Qed.

Lemma relaunchAppInChildProcess_child_invocation_witness :
  Relaunch.execPath Samples.devProcess = "/usr/bin/bun"
  /\ [Some "--smol"; Some "gemini.js"; Some "--resume"; Some "--debug"]
     = Some <$> (["--smol"] ++ "gemini.js" :: ["--resume"] ++ ["--debug"])
  /\ <["GEMINI_CLI_NO_RELAUNCH" := "true"]> (Relaunch.env Samples.devProcess)
       !! "HOME"
     = Some "/home/u".
Proof.
  destruct (relaunchAppInChildProcess_child_invocation 199 5
              Samples.devProcess ["--smol"] ["--resume"]
              Samples.closesWithZero "bun" "gemini.js" ["--debug"]
              eq_refl "/usr/bin/bun"
              [Some "--smol"; Some "gemini.js"; Some "--resume";
               Some "--debug"]
              (<["GEMINI_CLI_NO_RELAUNCH" := "true"]>
                 (Relaunch.env Samples.devProcess)))
    as (Hexe & Hargs & _ & Henv).
  - apply list_elem_of_further, list_elem_of_here.
  - split; [symmetry; exact Hexe |]. split; [exact Hargs |].
    rewrite Henv; [reflexivity | discriminate].
Defined.

(** X4.  In the earlier revision, a compiled binary (script path under
    ['/$bunfs/']) is relaunched without its script path: the children get
    the extra runtime arguments, the extra script arguments and the
    original arguments only. *)
Theorem RevA_compiled_binary_omits_script
    (RELAUNCH_EXIT_CODE : Z) (fuel : nat) (process : Relaunch.Process)
    (additionalBunArgs additionalScriptArgs : list string)
    (children : nat -> Relaunch.ChildEnd)
    (exe script : string) (rest : list string) :
  Relaunch.argv process = exe :: script :: rest ->
  String.prefix "/$bunfs/" script = true ->
  forall x a env',
    Relaunch.Spawn x a env'
    ∈ Relaunch.trace
        (Relaunch.RevA.relaunchAppInChildProcess RELAUNCH_EXIT_CODE fuel
           process additionalBunArgs additionalScriptArgs children) ->
    x = Relaunch.execPath process
    /\ a = Some <$> (additionalBunArgs ++ additionalScriptArgs ++ rest).
Proof.
  intros Hargv Hprefix x a env' Hin.
  unfold Relaunch.RevA.relaunchAppInChildProcess,
    Relaunch.relaunchOnExitCode in Hin.
  destruct (Relaunch.truthy _); [by apply elem_of_nil in Hin |].
  pose proof (loop_started_as RELAUNCH_EXIT_CODE process _ children _
                (RevA_runner_args process additionalBunArgs
                   additionalScriptArgs children)
                fuel 0 [] (Forall_nil_2 _)) as Hall.
  cbv zeta in Hall. rewrite Forall_forall in Hall.
  destruct (Hall _ Hin) as (-> & -> & ->).
  split; [reflexivity |].
  rewrite Hargv. simpl. rewrite Hprefix. simpl.
  rewrite !fmap_app. reflexivity.
Qed.

Lemma RevA_compiled_binary_omits_script_witness :
  [Some "--smol"; Some "--debug"] = Some <$> (["--smol"] ++ [] ++ ["--debug"]).
Proof.
  refine (proj2 (RevA_compiled_binary_omits_script 199 5 Samples.compiledUnix
                   ["--smol"] [] Samples.closesWithZero
                   "bun" "/$bunfs/root/gemini" ["--debug"]
                   eq_refl eq_refl "/opt/gemini/bin/gemini"
                   [Some "--smol"; Some "--debug"]
                   (<["GEMINI_CLI_NO_RELAUNCH" := "true"]>
                      (Relaunch.env Samples.compiledUnix)) _)).
  apply list_elem_of_further, list_elem_of_here.
Defined.



(** X6.  In every run of [relaunchAppInChildProcess] (both revisions),
    [process.exit] happens at most once and is the last event: a run that
    has exited with some code ends with exactly that exit, and a run that
    returned or is still waiting has not called [process.exit] at all. *)
Theorem relaunchAppInChildProcess_exit_is_final
    (RELAUNCH_EXIT_CODE : Z) (fuel : nat) (process : Relaunch.Process)
    (additionalBunArgs additionalScriptArgs : list string)
    (children : nat -> Relaunch.ChildEnd) :
  let final (r : Relaunch.Run) :=
    match Relaunch.status r with
    | Relaunch.Exited code =>
        exists pre,
          Relaunch.trace r = pre ++ [Relaunch.ProcessExit code]
          /\ List.filter Vocabulary.isExit pre = []
    | _ => List.filter Vocabulary.isExit (Relaunch.trace r) = []
    end in
  final (Relaunch.RevA.relaunchAppInChildProcess RELAUNCH_EXIT_CODE fuel
           process additionalBunArgs additionalScriptArgs children)
  /\ final (Relaunch.RevB.relaunchAppInChildProcess RELAUNCH_EXIT_CODE fuel
              process additionalBunArgs additionalScriptArgs children).
Proof.
  cbv zeta.
  unfold Relaunch.RevA.relaunchAppInChildProcess,
    Relaunch.RevB.relaunchAppInChildProcess, Relaunch.relaunchOnExitCode.
  destruct (Relaunch.truthy _); simpl; [split; reflexivity |].
  split.
  - apply (loop_exit_events RELAUNCH_EXIT_CODE process _ children _
             (RevA_runner_args process additionalBunArgs
                additionalScriptArgs children)
             fuel 0 [] eq_refl).
  - destruct (Relaunch.RevB.isCompiledBinary _); simpl; [reflexivity |].
    apply (loop_exit_events RELAUNCH_EXIT_CODE process _ children _
             (RevB_runner_args process additionalBunArgs
                additionalScriptArgs (Relaunch.argv process !! 1) children)
             fuel 0 [] eq_refl).
Qed.

(** X7.  The two revisions differ for compiled binaries only: whenever the
    script path starts with neither ['/$bunfs/'] nor ['B:/~BUN/'] (or is
    missing), they give the same run, event for event. *)
Theorem relaunch_revisions_agree
    (RELAUNCH_EXIT_CODE : Z) (fuel : nat) (process : Relaunch.Process)
    (additionalBunArgs additionalScriptArgs : list string)
    (children : nat -> Relaunch.ChildEnd) :
  Relaunch.RevB.isCompiledBinary (Relaunch.argv process !! 1) = false ->
  Relaunch.RevA.relaunchAppInChildProcess RELAUNCH_EXIT_CODE fuel process
    additionalBunArgs additionalScriptArgs children
  = Relaunch.RevB.relaunchAppInChildProcess RELAUNCH_EXIT_CODE fuel process
      additionalBunArgs additionalScriptArgs children.
Proof.
  intros Hnot.
  unfold Relaunch.RevA.relaunchAppInChildProcess,
    Relaunch.RevB.relaunchAppInChildProcess, Relaunch.relaunchOnExitCode.
  destruct (Relaunch.truthy _); [reflexivity |].
  rewrite Hnot. apply loop_ext. intros j.
  unfold Relaunch.RevA.runner, Relaunch.RevB.runner.
  unfold Relaunch.RevB.isCompiledBinary in Hnot.
  apply orb_false_iff in Hnot as [-> _]. reflexivity.
Qed.

Lemma relaunch_revisions_agree_witness :
  Relaunch.RevA.relaunchAppInChildProcess 199 5 Samples.devProcess
    ["--smol"] [] Samples.relaunchThenError
  = Relaunch.RevB.relaunchAppInChildProcess 199 5 Samples.devProcess
      ["--smol"] [] Samples.relaunchThenError.
Proof.
  apply (relaunch_revisions_agree 199 5 Samples.devProcess ["--smol"] []
           Samples.relaunchThenError).
  reflexivity.
Defined.

(** * Further properties of the PTY adapter *)

Section SelectorMore.
Import PtyAdapter.
Context {R : Type}.

(** What a call of the selector under Bun does, case by case. *)
Lemma createPtyAdapter_cases (host : Host) (st : ModuleState) :
  isBun host = true ->
  match bunPtySpawn st, importBunPty host with
  | Some f, _ =>
      createPtyAdapter (R := R) host st
      = (Normal (Some {| backend := "bun-pty"; adapter_spawn := spawn f |}),
         st)
  | None, inl f =>
      createPtyAdapter (R := R) host st
      = (Normal (Some {| backend := "bun-pty"; adapter_spawn := spawn f |}),
         {| bunPtySpawn := Some f; debugLog := debugLog st |})
  | None, inr e =>
      createPtyAdapter (R := R) host st
      = (Normal None,
         {| bunPtySpawn := None;
            debugLog := debugLog st
                        ++ [("Failed to create bun-pty adapter:", e)] |})
  end.
Proof.
  destruct st as [cache log], host as [bun import]. simpl. intros ->.
  unfold createPtyAdapter, createBunPtyAdapter, tryCatch, bind, readCache,
    writeCache, ret, throw, debugLogger_debug.
  simpl. destruct cache as [f|]; [reflexivity |].
  destruct import as [f | e]; reflexivity.
Qed.

End SelectorMore.

(** X8.  The resolved [spawn] of bun-pty is memoized: once
    [createPtyAdapter] has returned an adapter, every later call under Bun
    returns the same adapter without importing bun-pty again, so it
    succeeds even if the import would now fail, and it neither writes a
    debug entry nor changes the module state. *)
Theorem createPtyAdapter_memoized {R : Type}
    (host host' : PtyAdapter.Host) (st st1 : PtyAdapter.ModuleState)
    (adapter : PtyAdapter.PtyAdapter R) :
  PtyAdapter.createPtyAdapter host st = (PtyAdapter.Normal (Some adapter), st1)
  -> PtyAdapter.isBun host' = true ->
  PtyAdapter.createPtyAdapter host' st1
  = (PtyAdapter.Normal (Some adapter), st1).
Proof.
  intros Hfirst Hbun'.
  destruct (PtyAdapter.isBun host) eqn:Hbun.
  - pose proof (createPtyAdapter_cases (R := R) host st Hbun) as H1.
    pose proof (createPtyAdapter_cases (R := R) host' st1 Hbun') as H2.
    destruct (PtyAdapter.bunPtySpawn st) as [f|] eqn:Hcache.
    + rewrite H1 in Hfirst. injection Hfirst as <- <-.
      rewrite Hcache in H2. exact H2.
    + destruct (PtyAdapter.importBunPty host) as [f | e].
      * rewrite H1 in Hfirst. injection Hfirst as <- <-.
        simpl in H2. exact H2.
      * rewrite H1 in Hfirst. discriminate.
  - unfold PtyAdapter.createPtyAdapter in Hfirst. rewrite Hbun in Hfirst.
    discriminate.
Qed.

Lemma createPtyAdapter_memoized_witness :
  exists adapter st1,
    PtyAdapter.createPtyAdapter (R := unit) MorePtySamples.bunHost
      PtySamples.freshModule
    = (PtyAdapter.Normal (Some adapter), st1)
    /\ PtyAdapter.createPtyAdapter PtySamples.bunHostWithoutPty st1
       = (PtyAdapter.Normal (Some adapter), st1).
Proof.
  eexists. eexists. split; [reflexivity |].
  apply (createPtyAdapter_memoized (R := unit) MorePtySamples.bunHost
           PtySamples.bunHostWithoutPty PtySamples.freshModule).
  - reflexivity.
  - reflexivity.
Defined.

(** X9.  Under Bun, a [null] answer of [createPtyAdapter] means that the
    import of bun-pty threw: that error is the one entry added to the debug
    log, and nothing is cached, so a later call imports again and returns
    the adapter as soon as the import succeeds. *)
Theorem createPtyAdapter_failure_not_cached {R : Type}
    (host : PtyAdapter.Host) (st st1 : PtyAdapter.ModuleState) :
  PtyAdapter.isBun host = true ->
  PtyAdapter.createPtyAdapter (R := R) host st = (PtyAdapter.Normal None, st1)
  ->
  (exists e,
     PtyAdapter.importBunPty host = inr e
     /\ PtyAdapter.debugLog st1
        = PtyAdapter.debugLog st ++ [("Failed to create bun-pty adapter:", e)])
  /\ PtyAdapter.bunPtySpawn st1 = None
  /\ forall host' f,
       PtyAdapter.isBun host' = true ->
       PtyAdapter.importBunPty host' = inl f ->
       PtyAdapter.createPtyAdapter (R := R) host' st1
       = (PtyAdapter.Normal
            (Some {| PtyAdapter.backend := "bun-pty";
                     PtyAdapter.adapter_spawn := PtyAdapter.spawn f |}),
          {| PtyAdapter.bunPtySpawn := Some f;
             PtyAdapter.debugLog := PtyAdapter.debugLog st1 |}).
Proof.
  intros Hbun Hnull.
  pose proof (createPtyAdapter_cases (R := R) host st Hbun) as H1.
  destruct (PtyAdapter.bunPtySpawn st) as [f|];
    [rewrite H1 in Hnull; discriminate |].
  destruct (PtyAdapter.importBunPty host) as [f | e];
    [rewrite H1 in Hnull; discriminate |].
  rewrite H1 in Hnull. injection Hnull as <-.
  split; [exists e; split; reflexivity |]. split; [reflexivity |].
  intros host' f Hbun' Himport.
  pose proof (createPtyAdapter_cases (R := R) host'
                {| PtyAdapter.bunPtySpawn := None;
                   PtyAdapter.debugLog :=
                     PtyAdapter.debugLog st
                     ++ [("Failed to create bun-pty adapter:", e)] |}
                Hbun') as H2.
  simpl in H2. rewrite Himport in H2. exact H2.
Qed.

Lemma createPtyAdapter_failure_not_cached_witness :
  exists st1,
    PtyAdapter.createPtyAdapter (R := unit) PtySamples.bunHostWithoutPty
      PtySamples.freshModule
    = (PtyAdapter.Normal None, st1)
    /\ PtyAdapter.bunPtySpawn st1 = None.
Proof.
  eexists. split; [reflexivity |].
  refine (proj1 (proj2 (createPtyAdapter_failure_not_cached (R := unit)
                          PtySamples.bunHostWithoutPty PtySamples.freshModule
                          _ _ _))).
  - reflexivity.
  - reflexivity.
Defined.

Section CleanEnvMore.
Import PtyAdapter.

Lemma define_fresh (o : JsObject) key value :
  key ∉ o.*1 -> define o key value = o ++ [(key, value)].
Proof.
  induction o as [|[k x] o IH]; intros Hnotin; [reflexivity |].
  rewrite fmap_cons in Hnotin. apply not_elem_of_cons in Hnotin as [Hne Hnotin].
  cbn [define]. destruct (String.eqb_spec k key) as [-> | _]; [done |].
  rewrite IH by exact Hnotin. reflexivity.
Qed.

Lemma assign_keys (o : JsObject) key value k :
  k ∈ (assign o key value).*1 ->
  k ∈ o.*1 \/ (k = key /\ key <> "__proto__").
Proof.
  unfold assign. destruct (String.eqb_spec key "__proto__") as [-> | Hne];
    [by left |].
  destruct (define_keys o key value) as [-> | [_ ->]]; [by left |].
  intros [Hk | Hk%list_elem_of_singleton]%elem_of_app; [by left |].
  right. done.
Qed.

(** The loop never creates a property named [__proto__]. *)
Lemma cleanEntries_no_proto (entries : list (string * JsValue)) :
  forall cleanEnv,
    "__proto__" ∉ cleanEnv.*1 ->
    "__proto__" ∉ (cleanEntries entries cleanEnv).*1.
Proof.
  induction entries as [|[key value] rest IH]; intros cleanEnv Hnotin;
    [exact Hnotin |].
  simpl. destruct (isPresent value); apply IH; [| exact Hnotin].
  intros [Hin | [Heq Hne]]%assign_keys; [done | congruence].
Qed.

(** On distinct names with string values the loop copies its input. *)
Lemma cleanEntries_copies (entries : list (string * JsValue)) :
  forall cleanEnv,
    NoDup (cleanEnv ++ entries).*1 ->
    Forall Protocol.isString entries ->
    "__proto__" ∉ entries.*1 ->
    cleanEntries entries cleanEnv = cleanEnv ++ entries.
Proof.
  induction entries as [|[key value] rest IH];
    intros cleanEnv Hnd Hstr Hproto.
  - simpl. rewrite app_nil_r. reflexivity.
  - apply Forall_cons in Hstr as [[s Hs] Hstr]. simpl in Hs. subst value.
    rewrite fmap_cons in Hproto.
    apply not_elem_of_cons in Hproto as [Hne Hproto].
    simpl. unfold assign.
    destruct (String.eqb_spec key "__proto__") as [-> | _]; [done |].
    rewrite fmap_app, fmap_cons in Hnd.
    assert (Hfresh : key ∉ cleanEnv.*1).
    { apply NoDup_app in Hnd as (_ & Hdisj & _).
      intros Hin. apply (Hdisj key Hin). apply elem_of_cons. by left. }
    rewrite define_fresh by exact Hfresh.
    rewrite IH; [rewrite <- app_assoc; reflexivity | | exact Hstr
                | exact Hproto].
    rewrite <- app_assoc. simpl. rewrite fmap_app, fmap_cons. exact Hnd.
Qed.

End CleanEnvMore.

(** X10.  An environment mapping with pairwise distinct names, string
    values only and no property named [__proto__] reaches bun-pty exactly
    as given, in the same order and with the same values (empty strings
    included). *)
Theorem spawn_env_unchanged {R : Type} (spawn_ : PtyAdapter.BunPtySpawn)
    (command : string) (args : list string)
    (options : PtyAdapter.PtySpawnOptions) (e : PtyAdapter.JsObject) :
  PtyAdapter.env options = Some e ->
  NoDup e.*1 ->
  Forall Protocol.isString e ->
  "__proto__" ∉ e.*1 ->
  PtyAdapter.fork_env
    (PtyAdapter.handed (R := R)
       (PtyAdapter.spawn spawn_ command args options)).2
  = e.
Proof.
  intros He Hnd Hstr Hproto. unfold PtyAdapter.spawn. simpl. rewrite He.
  unfold PtyAdapter.Object_entries.
  apply (cleanEntries_copies e []); assumption.
Qed.

Lemma spawn_env_unchanged_witness :
  PtyAdapter.fork_env
    (PtyAdapter.handed (R := unit)
       (PtyAdapter.spawn PtySamples.fakeSpawn "sh" []
          MorePtySamples.plainEnvOptions)).2
  = MorePtySamples.plainEnv.
Proof.
  apply (spawn_env_unchanged (R := unit) PtySamples.fakeSpawn "sh" []
           MorePtySamples.plainEnvOptions MorePtySamples.plainEnv).
  - reflexivity.
  - apply (bool_decide_unpack _). vm_compute. exact I.
  - repeat (apply Forall_cons; split; [eexists; reflexivity |]).
    apply Forall_nil_2.
  - apply (bool_decide_unpack _). vm_compute. exact I.
Defined.

(** X11.  Sanitizing is idempotent: spawning again with the environment
    that was handed to bun-pty hands over that same environment. *)
Theorem spawn_env_idempotent {R : Type} (spawn_ : PtyAdapter.BunPtySpawn)
    (command : string) (args : list string)
    (options : PtyAdapter.PtySpawnOptions) :
  let handedEnv (o : PtyAdapter.PtySpawnOptions) :=
    PtyAdapter.fork_env
      (PtyAdapter.handed (R := R) (PtyAdapter.spawn spawn_ command args o)).2
  in
  handedEnv
    {| PtyAdapter.name := PtyAdapter.name options;
       PtyAdapter.cols := PtyAdapter.cols options;
       PtyAdapter.rows := PtyAdapter.rows options;
       PtyAdapter.cwd := PtyAdapter.cwd options;
       PtyAdapter.env := Some (handedEnv options);
       PtyAdapter.handleFlowControl := PtyAdapter.handleFlowControl options |}
  = handedEnv options.
Proof.
  cbv zeta. unfold PtyAdapter.spawn, PtyAdapter.Object_entries. simpl.
  destruct (PtyAdapter.env options) as [e|]; [| reflexivity].
  apply (cleanEntries_copies _ []).
  - simpl. apply cleanEntries_NoDup. constructor.
  - apply Forall_forall. intros [key value] Hin.
    apply cleanEntries_origin in Hin as [Hin | (x & _ & _ & ->)];
      [by apply elem_of_nil in Hin |].
    eexists. reflexivity.
  - apply cleanEntries_no_proto. apply not_elem_of_nil.
Qed.

(** * The TTY probes *)

(** X12.  [isStdinTTY] and [isStdoutTTY] never throw.  Each answers [true]
    exactly when the stream's [isTTY] is [true] or [tty.isatty] returns
    [true] for its descriptor (0 for stdin, 1 for stdout); a failing
    [tty.isatty] counts as [false].  [tty.isatty] is asked at most once,
    only about that descriptor, and not at all when [isTTY] is [true]. *)
Theorem tty_probes_total (streams : TtyUtils.Streams)
    (isatty : TtyUtils.Isatty) :
  let spec (p : TtyUtils.Probe) (isTTY : option bool) (fd : Z) :=
    (exists b,
       TtyUtils.answer p = PtyAdapter.Normal b
       /\ (b = true <->
           isTTY = Some true \/ isatty fd = PtyAdapter.Normal true))
    /\ TtyUtils.asked p = (if decide (isTTY = Some true) then [] else [fd]) in
  spec (TtyUtils.isStdinTTY streams isatty) (TtyUtils.stdin_isTTY streams) 0%Z
  /\ spec (TtyUtils.isStdoutTTY streams isatty)
       (TtyUtils.stdout_isTTY streams) 1%Z.
Proof.
  cbv zeta. unfold TtyUtils.isStdinTTY, TtyUtils.isStdoutTTY,
    TtyUtils.isattyOrFalse.
  split.
  - destruct (TtyUtils.stdin_isTTY streams) as [[|]|]; simpl.
    + split; [exists true; tauto | reflexivity].
    + split; [| reflexivity].
      destruct (isatty 0%Z) as [[|] | e]; eexists; split; try reflexivity;
        split; try tauto; try discriminate; intros [H | H]; discriminate H.
    + split; [| reflexivity].
      destruct (isatty 0%Z) as [[|] | e]; eexists; split; try reflexivity;
        split; try tauto; try discriminate; intros [H | H]; discriminate H.
  - destruct (TtyUtils.stdout_isTTY streams) as [[|]|]; simpl.
    + split; [exists true; tauto | reflexivity].
    + split; [| reflexivity].
      destruct (isatty 1%Z) as [[|] | e]; eexists; split; try reflexivity;
        split; try tauto; try discriminate; intros [H | H]; discriminate H.
    + split; [| reflexivity].
      destruct (isatty 1%Z) as [[|] | e]; eexists; split; try reflexivity;
        split; try tauto; try discriminate; intros [H | H]; discriminate H.
Qed.

(** * The global entry point *)

(** X13.  Whatever [main()] rejects with, the handler first runs the exit
    cleanup, then writes to stderr only, and ends with exactly one
    [process.exit]: with the error's own exit code for a [FatalError], with
    1 otherwise.  When [NO_COLOR] is set to a non-empty value the message of
    a [FatalError] is written as it is, followed by a newline. *)
Theorem onMainRejected_ends_process (env : gmap string string)
    (error : Entry.Failure) :
  (exists texts,
     Entry.onMainRejected env error
     = Entry.RunExitCleanup :: (Entry.WriteToStderr <$> texts)
       ++ [Entry.ProcessExit
             match error with
             | Entry.IsFatalError _ exitCode => exitCode
             | Entry.IsOther _ => 1%Z
             end])
  /\ forall message exitCode value,
       error = Entry.IsFatalError message exitCode ->
       env !! "NO_COLOR" = Some value -> value <> "" ->
       Entry.onMainRejected env error
       = [Entry.RunExitCleanup;
          Entry.WriteToStderr (message +:+ Relaunch.nl);
          Entry.ProcessExit exitCode].
Proof.
  split.
  - destruct error as [message exitCode | e]; simpl.
    + eexists [_]. reflexivity.
    + eexists [_; _]. reflexivity.
  - intros message exitCode value -> Hvalue Hne.
    unfold Entry.onMainRejected. rewrite Hvalue.
    simpl. apply String.eqb_neq in Hne. rewrite Hne. reflexivity.
Qed.

Lemma onMainRejected_ends_process_witness :
  Entry.onMainRejected {["NO_COLOR" := "1"]}
    (Entry.IsFatalError "bad flag" 42)
  = [Entry.RunExitCleanup;
     Entry.WriteToStderr ("bad flag" +:+ Relaunch.nl);
     Entry.ProcessExit 42].
Proof.
  refine (proj2 (onMainRejected_ends_process {["NO_COLOR" := "1"]}
                   (Entry.IsFatalError "bad flag" 42))
            "bad flag" 42%Z "1" eq_refl _ _).
  - reflexivity.
  - discriminate.
Defined.

(** * The build scripts *)

(** X14.  Package names tell build targets apart: two targets with the
    same package name are the same target, so no two targets of a build
    share an output directory or an entry of the result table. *)
Theorem getPackageName_injective (t1 t2 : BuildBinary.BuildTarget) :
  BuildBinary.getPackageName t1 = BuildBinary.getPackageName t2 -> t1 = t2.
Proof.
  destruct t1 as [[] [] [[]|] [[]|]], t2 as [[] [] [[]|] [[]|]];
    intros H; try reflexivity; vm_compute in H; discriminate H.
Qed.

Lemma getPackageName_injective_witness :
  {| BuildBinary.os := BuildBinary.win32; BuildBinary.arch := BuildBinary.x64;
     BuildBinary.abi := None; BuildBinary.avx2 := None |}
  = {| BuildBinary.os := BuildBinary.win32; BuildBinary.arch := BuildBinary.x64;
       BuildBinary.abi := None; BuildBinary.avx2 := None |}.
Proof.
  apply getPackageName_injective. reflexivity.
Defined.

(** X15.  The Bun compile target depends on the operating system, the
    architecture and the baseline flag of a build target and on nothing
    else: in particular a musl target is compiled for the same Bun target
    as its glibc counterpart. *)
Theorem getBunTarget_ignores_abi (t1 t2 : BuildBinary.BuildTarget) :
  BuildBinary.getBunTarget t1 = BuildBinary.getBunTarget t2
  <-> BuildBinary.os t1 = BuildBinary.os t2
      /\ BuildBinary.arch t1 = BuildBinary.arch t2
      /\ BuildBinary.avx2 t1 = BuildBinary.avx2 t2.
Proof.
  destruct t1 as [[] [] [[]|] [[]|]], t2 as [[] [] [[]|] [[]|]];
    simpl; split;
    first [ intros _; repeat split; reflexivity
          | intros H; vm_compute in H; discriminate H
          | intros (H1 & H2 & H3); discriminate ].
Qed.

(** X16.  What [getTargets] selects.  Without [--baseline] no baseline
    target (one with [avx2: false]) is ever built.  With [--all] every
    selected target comes from the table of all targets, and without
    [--baseline] every other entry of the table is selected.  Without
    [--all] only the current platform and architecture are built, and never
    for musl. *)
Theorem getTargets_selection (allFlag baselineFlag : bool)
    (platform : BuildBinary.OS) (arch_ : BuildBinary.Arch) :
  (forall t,
     t ∈ BuildBinary.getTargets allFlag baselineFlag platform arch_ ->
     (baselineFlag = false -> BuildBinary.avx2 t = None)
     /\ (allFlag = true -> t ∈ BuildBinary.allTargets)
     /\ (allFlag = false ->
         BuildBinary.os t = platform /\ BuildBinary.arch t = arch_
         /\ BuildBinary.abi t = None))
  /\ (forall t,
        t ∈ BuildBinary.allTargets -> BuildBinary.avx2 t = None ->
        t ∈ BuildBinary.getTargets true false platform arch_).
Proof.
  split.
  - intros t Hin. destruct allFlag, baselineFlag; vm_compute in Hin;
      repeat (apply elem_of_cons in Hin as [-> | Hin]);
      try (by apply elem_of_nil in Hin);
      (split; [intros; first [reflexivity | discriminate] |]);
      (split; [intros; first [discriminate | set_solver] |]);
      intros; first [discriminate | repeat split].
  - intros t Hin Havx. vm_compute in Hin.
    repeat (apply elem_of_cons in Hin as [-> | Hin]);
      try (by apply elem_of_nil in Hin); try discriminate Havx;
      vm_compute; set_solver.
Qed.

Lemma getTargets_selection_witness :
  BuildBinary.os
    {| BuildBinary.os := BuildBinary.linux; BuildBinary.arch := BuildBinary.x64;
       BuildBinary.abi := None; BuildBinary.avx2 := None |}
  = BuildBinary.linux
  /\ {| BuildBinary.os := BuildBinary.darwin;
        BuildBinary.arch := BuildBinary.arm64;
        BuildBinary.abi := None; BuildBinary.avx2 := None |}
     ∈ BuildBinary.getTargets true false BuildBinary.linux BuildBinary.x64.
Proof.
  pose proof (getTargets_selection false false BuildBinary.linux
                BuildBinary.x64) as [Hsel _].
  pose proof (getTargets_selection true false BuildBinary.linux
                BuildBinary.x64) as [_ Hall].
  split.
  - apply (Hsel _ (list_elem_of_here _ _)). reflexivity.
  - apply Hall; [| reflexivity].
    do 6 apply list_elem_of_further. apply list_elem_of_here.
Defined.

(** X17.  In every mode the targets selected for one build have pairwise
    distinct package names, so each gets its own directory under [dist]
    and its own entry in the table of results. *)
Theorem getTargets_names_distinct (allFlag baselineFlag : bool)
    (platform : BuildBinary.OS) (arch_ : BuildBinary.Arch) :
  NoDup (BuildBinary.getPackageName
           <$> BuildBinary.getTargets allFlag baselineFlag platform arch_).
Proof.
  destruct allFlag, baselineFlag, platform, arch_;
    apply (bool_decide_unpack _); vm_compute; exact I.
Qed.

Section JsStrings.

Lemma split_nonempty (sep : Ascii.ascii) (s : string) : Js.split sep s <> [].
Proof.
  destruct s as [|c s]; simpl; [discriminate |].
  destruct (Ascii.eqb c sep); [discriminate |].
  destruct (Js.split sep s); discriminate.
Qed.

Lemma join_String (sep : string) c x (l : list string) :
  Js.join sep (String c x :: l) = String c (Js.join sep (x :: l)).
Proof. destruct l; reflexivity. Qed.

(** Splitting at newlines and joining with newlines gives the text back. *)
Lemma join_split (s : string) :
  Js.join Relaunch.nl (Js.split BuildBinary.newline s) = s.
Proof.
  induction s as [|c s IH]; [reflexivity |].
  simpl. destruct (Ascii.eqb_spec c BuildBinary.newline) as [-> | Hne].
  - pose proof (split_nonempty BuildBinary.newline s) as Hnonempty.
    destruct (Js.split BuildBinary.newline s) as [|line lines] eqn:Hsplit;
      [done |].
    change (Js.join Relaunch.nl (EmptyString :: line :: lines))
      with (String BuildBinary.newline (Js.join Relaunch.nl (line :: lines))).
    rewrite IH. reflexivity.
  - pose proof (split_nonempty BuildBinary.newline s) as Hnonempty.
    destruct (Js.split BuildBinary.newline s) as [|line lines] eqn:Hsplit;
      [done |].
    rewrite join_String, IH. reflexivity.
Qed.

(** Replacing a pattern that does not occur changes nothing. *)
Lemma replace_absent (s pattern replacement : string) :
  Js.includes s pattern = false -> Js.replace s pattern replacement = s.
Proof.
  induction s as [|c s IH]; simpl; intros H;
    apply orb_false_iff in H as [-> H]; [reflexivity |].
  rewrite IH by exact H. reflexivity.
Qed.

Lemma prefix_append (p s : string) : String.prefix p (p +:+ s) = true.
Proof.
  induction p as [|c p IH]; simpl; [by destruct s |].
  destruct (Ascii.ascii_dec c c); [exact IH | done].
Qed.

Lemma skip_append (p s : string) : Js.skip (String.length p) (p +:+ s) = s.
Proof. induction p as [|c p IH]; simpl; [by destruct s | exact IH]. Qed.

End JsStrings.

(** X18.  Post-processing the bundle is the identity on a bundle in which
    no line after the second contains the import statement
    [import { createRequire } from "module";]: the text written back is the
    text that was read, character for character. *)
Theorem postProcess_unchanged (bundleContent : string) :
  (forall index line,
     Js.split BuildBinary.newline bundleContent !! index = Some line ->
     2 <= index ->
     Js.includes line BuildBinary.duplicateImport = false) ->
  BuildBinary.postProcess bundleContent = bundleContent.
Proof.
  intros Habsent. unfold BuildBinary.postProcess. cbv zeta.
  rewrite (imap_ext _ (fun _ line => line)).
  - change (fun (_ : nat) (line : string) => line) with (@const _ nat (@id string)).
    rewrite imap_const, list_fmap_id. apply join_split.
  - intros index line Hline. simpl. unfold BuildBinary.processLine.
    destruct (index <? 2)%nat eqn:Hindex; [reflexivity |].
    apply Nat.ltb_ge in Hindex.
    destruct (Js.includes line "import { createRequire }"); [| reflexivity].
    apply replace_absent. eapply Habsent; eauto.
Qed.

Lemma postProcess_unchanged_witness :
  let bundle := "#!/usr/bin/env node" +:+ Relaunch.nl
                +:+ "const require = 1;" +:+ Relaunch.nl
                +:+ "import { createRequire } from 'node:module';"
                +:+ Relaunch.nl +:+ "main();" in
  BuildBinary.postProcess bundle = bundle.
Proof.
  cbv zeta. apply postProcess_unchanged.
  intros index line Hline Hindex.
  destruct index as [|[|[|[|index]]]]; try lia.
  - injection Hline as <-. reflexivity.
  - injection Hline as <-. reflexivity.
  - discriminate Hline.
Defined.

(** X19.  From the third line on, a line that begins with
    [import { createRequire } from "module";] gets that statement replaced
    by [const __fdir_createRequire = (await import("module")).createRequire;]
    and keeps what follows; the first two lines are never touched. *)
Theorem processLine_scopes_leading_import (rest : string) (index : nat) :
  2 <= index ->
  BuildBinary.processLine (BuildBinary.duplicateImport +:+ rest) index
  = BuildBinary.scopedImport +:+ rest
  /\ forall line, BuildBinary.processLine line 0 = line
                  /\ BuildBinary.processLine line 1 = line.
Proof.
  intros Hindex. split; [| intros line; split; reflexivity].
  unfold BuildBinary.processLine.
  apply Nat.ltb_ge in Hindex. rewrite Hindex.
  assert (Hmarker : Js.includes (BuildBinary.duplicateImport +:+ rest)
                      "import { createRequire }" = true).
  { reflexivity. }
  rewrite Hmarker.
  assert (Hreplace : forall s p r,
            Js.replace (p +:+ s) p r = r +:+ s).
  { intros s p r. destruct p as [|c p].
    - simpl. destruct s; reflexivity.
    - change (Js.replace (String c p +:+ s) (String c p) r)
        with (if String.prefix (String c p) (String c p +:+ s)
              then r +:+ Js.skip (String.length (String c p))
                           (String c p +:+ s)
              else String c (Js.replace (p +:+ s) (String c p) r)).
      rewrite prefix_append, skip_append. reflexivity. }
  apply Hreplace.
Qed.

Lemma processLine_scopes_leading_import_witness :
  BuildBinary.processLine
    (BuildBinary.duplicateImport +:+ " var x = createRequire(f);") 7
  = BuildBinary.scopedImport +:+ " var x = createRequire(f);".
Proof.
  refine (proj1 (processLine_scopes_leading_import
                   " var x = createRequire(f);" 7 _)).
  lia.
Defined.

(** * The wrapper package and its launcher *)

Section Wrapper.
Import BuildWrapper.

Lemma addDependencies_lookup (version : string) (packages : list string) :
  forall (deps : gmap string string) (k : string),
    addDependencies version packages deps !! k
    = if bool_decide (k ∈ packages) then Some version else deps !! k.
Proof.
  unfold addDependencies.
  induction packages as [|pkg packages IH]; intros deps k; [reflexivity |].
  simpl. rewrite IH. destruct (decide (k = pkg)) as [-> | Hne].
  - rewrite lookup_insert_eq.
    rewrite (bool_decide_eq_true_2 (pkg ∈ pkg :: packages))
      by (apply elem_of_cons; by left).
    by destruct (bool_decide (pkg ∈ packages)).
  - rewrite lookup_insert_ne by congruence.
    destruct (decide (k ∈ packages)) as [Hin | Hnotin].
    + rewrite !bool_decide_eq_true_2; [reflexivity | | exact Hin].
      apply elem_of_cons. by right.
    + rewrite !bool_decide_eq_false_2; [reflexivity | | exact Hnotin].
      intros [? | ?]%elem_of_cons; done.
Qed.

End Wrapper.

(** X20.  The wrapper's [optionalDependencies] name exactly the listed
    platform packages, each at the wrapper's own version; and they cover
    the package of every target of the binary build except the musl
    baseline one, which the build names [...-x64-baseline-musl] while the
    wrapper lists [...-x64-musl-baseline]. *)
Theorem optionalDependencies_cover_targets (version : string) :
  (forall k,
     BuildWrapper.optionalDependencies version !! k
     = if bool_decide (k ∈ BuildWrapper.platformPackages) then Some version
       else None)
  /\ forall t,
       t ∈ BuildBinary.allTargets ->
       (BuildWrapper.optionalDependencies version
          !! BuildBinary.getPackageName t = Some version
        <-> ~ (BuildBinary.abi t = Some BuildBinary.musl
               /\ BuildBinary.avx2 t = Some BuildBinary.avx2_false)).
Proof.
  assert (Hlookup : forall k,
            BuildWrapper.optionalDependencies version !! k
            = if bool_decide (k ∈ BuildWrapper.platformPackages)
              then Some version else None).
  { intros k. unfold BuildWrapper.optionalDependencies.
    rewrite addDependencies_lookup, lookup_empty. reflexivity. }
  split; [exact Hlookup |].
  intros t Hin. rewrite Hlookup. vm_compute in Hin.
  repeat (apply elem_of_cons in Hin as [-> | Hin]);
    try (by apply elem_of_nil in Hin);
    match goal with
    | |- context [bool_decide ?P] =>
        let b := eval vm_compute in (bool_decide P) in
        change (bool_decide P) with b
    end; simpl;
    (split; [intros H [H1 H2]; first [discriminate H1 | discriminate H2
                                      | discriminate H]
            | intros Hn; first [reflexivity
                               | exfalso; apply Hn; split; reflexivity]]).
Qed.

Lemma optionalDependencies_cover_targets_witness :
  BuildWrapper.optionalDependencies "0.1.0"
    !! BuildBinary.getPackageName
         {| BuildBinary.os := BuildBinary.win32;
            BuildBinary.arch := BuildBinary.x64;
            BuildBinary.abi := None;
            BuildBinary.avx2 := Some BuildBinary.avx2_false |}
  = Some "0.1.0".
Proof.
  apply (proj2 (optionalDependencies_cover_targets "0.1.0")).
  - do 10 apply list_elem_of_further. apply list_elem_of_here.
  - intros [H _]. discriminate H.
Defined.

(** The build's name for the musl baseline target is not among the
    packages the wrapper depends on. *)
Example musl_baseline_name_mismatch :
  BuildBinary.getPackageName
    {| BuildBinary.os := BuildBinary.linux; BuildBinary.arch := BuildBinary.x64;
       BuildBinary.abi := Some BuildBinary.musl;
       BuildBinary.avx2 := Some BuildBinary.avx2_false |}
  = "bun-gemini-cli-linux-x64-baseline-musl"
  /\ "bun-gemini-cli-linux-x64-musl-baseline" ∈ BuildWrapper.platformPackages.
Proof.
  split; [reflexivity |].
  do 8 apply list_elem_of_further. apply list_elem_of_here.
Qed.

Section FindBinary.
Import PtyAdapter BuildWrapper LauncherVocabulary.

Variable fs_ : FileSystem.
Variables base_ binary_ : string.

Lemma isCandidate_true (dir : Path) (entry : string) :
  isCandidate fs_ (joinPath dir ["node_modules"]) base_ binary_ entry = true
  <-> (entry = base_ \/ entry = base_ +:+ "-baseline")
      /\ existsSync fs_ (joinPath dir ["node_modules"; entry; "bin"; binary_])
         = true.
Proof.
  unfold isCandidate. rewrite andb_true_iff, orb_true_iff, !String.eqb_eq.
  reflexivity.
Qed.

Lemma searchModules_Some (dir : Path) (candidate : Path) :
  searchModules fs_ base_ binary_ dir = Normal (Some candidate) ->
  exists entry,
    installed fs_ base_ binary_ dir entry
    /\ candidate = joinPath dir ["node_modules"; entry; "bin"; binary_].
Proof.
  unfold searchModules, installed.
  destruct (existsSync fs_ (joinPath dir ["node_modules"])) eqn:Hexists;
    [| discriminate].
  destruct (readdirSync fs_ (joinPath dir ["node_modules"]))
    as [entries | e] eqn:Hread; [| discriminate].
  destruct (List.find _ entries) as [entry|] eqn:Hfind; [| discriminate].
  intros [= <-]. apply List.find_some in Hfind as [Hin Hcand].
  apply isCandidate_true in Hcand as [Hname Hbin].
  exists entry. repeat split; try done.
  exists entries. split; [reflexivity |]. by apply list_elem_of_In.
Qed.

Lemma searchModules_None (dir : Path) (entry : string) :
  searchModules fs_ base_ binary_ dir = Normal None ->
  ~ installed fs_ base_ binary_ dir entry.
Proof.
  unfold searchModules, installed.
  intros Hsearch (Hexists & (entries & Hread & Hin) & Hname & Hbin).
  rewrite Hexists, Hread in Hsearch.
  destruct (List.find _ entries) as [found|] eqn:Hfind; [discriminate |].
  apply list_elem_of_In in Hin.
  pose proof (List.find_none _ _ Hfind entry Hin) as Hnot.
  assert (isCandidate fs_ (joinPath dir ["node_modules"]) base_ binary_ entry
          = true) by (apply isCandidate_true; done).
  congruence.
Qed.

Lemma searchModules_installed (dir : Path) (entry : string) :
  installed fs_ base_ binary_ dir entry ->
  (exists candidate,
     searchModules fs_ base_ binary_ dir = Normal (Some candidate)).
Proof.
  unfold searchModules, installed.
  intros (Hexists & (entries & Hread & Hin) & Hname & Hbin).
  rewrite Hexists, Hread.
  destruct (List.find _ entries) as [found|] eqn:Hfind; [eauto |].
  apply list_elem_of_In in Hin.
  pose proof (List.find_none _ _ Hfind entry Hin) as Hnot.
  assert (isCandidate fs_ (joinPath dir ["node_modules"]) base_ binary_ entry
          = true) by (apply isCandidate_true; done).
  congruence.
Qed.

Lemma suffix_of_cons_inv {A : Type} (l1 l2 : list A) (x : A) :
  l1 `suffix_of` x :: l2 -> l1 = x :: l2 \/ l1 `suffix_of` l2.
Proof.
  destruct l1 as [|y l1]; [right; apply suffix_nil |]. apply suffix_cons_inv.
Qed.

(** What [findBinary] returns was found in the nearest directory, going
    up from the start, that has an accepted package. *)
Lemma findBinary_Some (current : Path) : forall candidate,
  findBinary fs_ base_ binary_ current = Normal (Some candidate) ->
  exists dir entry,
    dir `suffix_of` current
    /\ installed fs_ base_ binary_ dir entry
    /\ candidate = joinPath dir ["node_modules"; entry; "bin"; binary_]
    /\ forall nearer entry',
         nearer `suffix_of` current -> length dir < length nearer ->
         ~ installed fs_ base_ binary_ nearer entry'.
Proof.
  induction current as [|segment parent IH]; intros candidate; simpl.
  - destruct (searchModules fs_ base_ binary_ []) as [[found|] | e] eqn:Hs;
      try discriminate.
    intros [= <-]. apply searchModules_Some in Hs as (entry & Hinst & ->).
    exists [], entry. split; [reflexivity |]. split; [exact Hinst |].
    split; [reflexivity |].
    intros nearer entry' Hsuf Hlen. apply suffix_nil_inv in Hsuf as ->.
    simpl in Hlen. lia.
  - destruct (searchModules fs_ base_ binary_ (segment :: parent))
      as [[found|] | e] eqn:Hs; try discriminate.
    + intros [= <-]. apply searchModules_Some in Hs as (entry & Hinst & ->).
      exists (segment :: parent), entry. split; [reflexivity |].
      split; [exact Hinst |]. split; [reflexivity |].
      intros nearer entry' Hsuf Hlen. apply suffix_length in Hsuf. lia.
    + intros Hfind. destruct (IH _ Hfind) as (dir & entry & Hsuf & Hinst
                                              & Hcand & Hnear).
      exists dir, entry. split; [by apply suffix_cons_r |].
      split; [exact Hinst |]. split; [exact Hcand |].
      intros nearer entry' Hsuf' Hlen.
      apply suffix_of_cons_inv in Hsuf' as [-> | Hsuf'].
      * by apply searchModules_None.
      * by apply Hnear.
Qed.

Lemma findBinary_None (current : Path) :
  findBinary fs_ base_ binary_ current = Normal None ->
  forall dir entry, dir `suffix_of` current -> ~ installed fs_ base_ binary_ dir entry.
Proof.
  induction current as [|segment parent IH]; simpl.
  - destruct (searchModules fs_ base_ binary_ []) as [[found|] | e] eqn:Hs;
      try discriminate.
    intros _ dir entry Hsuf. apply suffix_nil_inv in Hsuf as ->.
    by apply searchModules_None.
  - destruct (searchModules fs_ base_ binary_ (segment :: parent))
      as [[found|] | e] eqn:Hs; try discriminate.
    intros Hfind dir entry Hsuf.
    apply suffix_of_cons_inv in Hsuf as [-> | Hsuf].
    + by apply searchModules_None.
    + by apply IH.
Qed.

Lemma findBinary_no_throw (current : Path) :
  (forall dir e,
     dir `suffix_of` current ->
     existsSync fs_ (joinPath dir ["node_modules"]) = true ->
     readdirSync fs_ (joinPath dir ["node_modules"]) <> Throw e) ->
  exists result, findBinary fs_ base_ binary_ current = Normal result.
Proof.
  induction current as [|segment parent IH]; intros Hread; simpl.
  - destruct (searchModules fs_ base_ binary_ []) as [[found|] | e] eqn:Hs;
      eauto.
    exfalso. unfold searchModules in Hs.
    destruct (existsSync fs_ (joinPath [] ["node_modules"])) eqn:Hexists;
      [| discriminate].
    destruct (readdirSync fs_ (joinPath [] ["node_modules"])) eqn:Hr;
      [discriminate |].
    injection Hs as <-. by eapply (Hread [] _).
  - destruct (searchModules fs_ base_ binary_ (segment :: parent))
      as [[found|] | e] eqn:Hs; eauto.
    + apply IH. intros dir e Hsuf. apply Hread. by apply suffix_cons_r.
    + exfalso. unfold searchModules in Hs.
      destruct (existsSync fs_ (joinPath (segment :: parent)
                                  ["node_modules"])) eqn:Hexists;
        [| discriminate].
      destruct (readdirSync fs_ (joinPath (segment :: parent)
                                   ["node_modules"])) eqn:Hr;
        [discriminate |].
      injection Hs as <-. by eapply (Hread (segment :: parent) _).
Qed.

End FindBinary.

(** X21.  A path returned by [findBinary] is
    [dir/node_modules/entry/bin/binary] for a directory [dir] that is the
    start directory or one above it, with [entry] listed in
    [dir/node_modules] and named [base] or [base-baseline], and that file
    exists; and no directory nearer to the start holds such a package: the
    nearest installation wins. *)
Theorem findBinary_nearest_installed (fs_ : BuildWrapper.FileSystem)
    (base_ binary_ : string) (start candidate : BuildWrapper.Path) :
  BuildWrapper.findBinary fs_ base_ binary_ start
  = PtyAdapter.Normal (Some candidate) ->
  exists dir entry,
    dir `suffix_of` start
    /\ LauncherVocabulary.installed fs_ base_ binary_ dir entry
    /\ candidate
       = BuildWrapper.joinPath dir ["node_modules"; entry; "bin"; binary_]
    /\ forall nearer entry',
         nearer `suffix_of` start -> length dir < length nearer ->
         ~ LauncherVocabulary.installed fs_ base_ binary_ nearer entry'.
Proof. apply findBinary_Some. Qed.

Lemma findBinary_nearest_installed_witness :
  exists dir entry,
    dir `suffix_of` LauncherSamples.installedScriptDir
    /\ LauncherVocabulary.installed LauncherSamples.installedFs
         "bun-gemini-cli-linux-x64" "gemini" dir entry.
Proof.
  destruct (findBinary_nearest_installed LauncherSamples.installedFs
              "bun-gemini-cli-linux-x64" "gemini"
              LauncherSamples.installedScriptDir
              ["gemini"; "bin"; "bun-gemini-cli-linux-x64-baseline";
               "node_modules"; "app"; "u"; "home"] eq_refl)
    as (dir & entry & Hsuf & Hinst & _).
  exists dir, entry. split; [exact Hsuf | exact Hinst].
Defined.

(** X22.  [findBinary] returns [null] only if no directory from the start
    upwards holds an accepted package with its binary; and when listing
    the existing [node_modules] directories on the way does not fail, it
    returns [null] exactly in that case and a path otherwise: it always
    comes back, the walk ending at the root. *)
Theorem findBinary_null_iff_absent (fs_ : BuildWrapper.FileSystem)
    (base_ binary_ : string) (start : BuildWrapper.Path) :
  let absent :=
    forall dir entry,
      dir `suffix_of` start ->
      ~ LauncherVocabulary.installed fs_ base_ binary_ dir entry in
  (BuildWrapper.findBinary fs_ base_ binary_ start = PtyAdapter.Normal None
   -> absent)
  /\ ((forall dir e,
         dir `suffix_of` start ->
         BuildWrapper.existsSync fs_
           (BuildWrapper.joinPath dir ["node_modules"]) = true ->
         BuildWrapper.readdirSync fs_
           (BuildWrapper.joinPath dir ["node_modules"])
         <> PtyAdapter.Throw e) ->
      (exists result,
         BuildWrapper.findBinary fs_ base_ binary_ start
         = PtyAdapter.Normal result)
      /\ (absent ->
          BuildWrapper.findBinary fs_ base_ binary_ start
          = PtyAdapter.Normal None)).
Proof.
  cbv zeta. split; [apply findBinary_None |].
  intros Hread.
  destruct (findBinary_no_throw fs_ base_ binary_ start Hread)
    as [result Hresult].
  split; [eauto |]. intros Habsent. rewrite Hresult.
  destruct result as [candidate|]; [| reflexivity].
  apply findBinary_Some in Hresult as (dir & entry & Hsuf & Hinst & _).
  destruct (Habsent dir entry Hsuf Hinst).
Qed.

Lemma findBinary_null_iff_absent_witness :
  ~ LauncherVocabulary.installed LauncherSamples.installedFs
      "bun-gemini-cli-linux-x64" "gemini" ["home"]
      "bun-gemini-cli-linux-x64-baseline".
Proof.
  apply (proj1 (findBinary_null_iff_absent LauncherSamples.installedFs
                  "bun-gemini-cli-linux-x64" "gemini" ["u"; "home"])).
  - reflexivity.
  - exists ["u"]. reflexivity.
Defined.

(** X23.  A launcher run that does not die of an exception ends with
    exactly one [process.exit], as its last action.  If it started a
    binary, it passed on the user's arguments ([process.argv.slice(2)])
    and exits with 1 when [spawnSync] reports an error, with the child's
    status when that is a number, and with 0 when the status is [null]
    (a child ended by a signal).  With [GEMINI_BIN_PATH] set to a non-empty
    value it runs exactly that path, whatever the platform and the file
    system are like. *)
Theorem launcher_exit (host : BuildWrapper.Host) :
  (forall tr,
     BuildWrapper.launcher host = PtyAdapter.Normal tr ->
     (exists pre code,
        tr = pre ++ [BuildWrapper.ProcessExit code]
        /\ forall e, e ∈ pre -> forall c, e <> BuildWrapper.ProcessExit c)
     /\ forall target args,
          BuildWrapper.SpawnSync target args ∈ tr ->
          args = drop 2 (BuildWrapper.argv host)
          /\ last tr
             = Some (BuildWrapper.ProcessExit
                       (LauncherVocabulary.exitCodeOf
                          (BuildWrapper.spawnSync host target args))))
  /\ forall path,
       BuildWrapper.GEMINI_BIN_PATH host = Some path -> path <> "" ->
       BuildWrapper.launcher host
       = PtyAdapter.Normal (BuildWrapper.run host (BuildWrapper.FromEnv path)).
Proof.
  assert (Hrun : forall target,
            let tr := BuildWrapper.run host target in
            (exists pre code,
               tr = pre ++ [BuildWrapper.ProcessExit code]
               /\ forall e, e ∈ pre ->
                    forall c, e <> BuildWrapper.ProcessExit c)
            /\ forall target' args,
                 BuildWrapper.SpawnSync target' args ∈ tr ->
                 args = drop 2 (BuildWrapper.argv host)
                 /\ last tr
                    = Some (BuildWrapper.ProcessExit
                              (LauncherVocabulary.exitCodeOf
                                 (BuildWrapper.spawnSync host target' args)))).
  { intros target. cbv zeta. unfold BuildWrapper.run,
      LauncherVocabulary.exitCodeOf.
    destruct (BuildWrapper.error _) as [message|] eqn:Herr.
    - split.
      + eexists [_; _], _. split; [reflexivity |].
        intros e He c. repeat (apply elem_of_cons in He as [-> | He]);
          [discriminate | discriminate | by apply elem_of_nil in He].
      + intros target' args Hin.
        repeat (apply elem_of_cons in Hin as [Hin | Hin]);
          try discriminate Hin; [| by apply elem_of_nil in Hin].
        injection Hin as -> ->. rewrite Herr. split; reflexivity.
    - split.
      + eexists [_], _. split; [reflexivity |].
        intros e He c. repeat (apply elem_of_cons in He as [-> | He]);
          [discriminate | by apply elem_of_nil in He].
      + intros target' args Hin.
        repeat (apply elem_of_cons in Hin as [Hin | Hin]);
          try discriminate Hin; [| by apply elem_of_nil in Hin].
        injection Hin as -> ->. rewrite Herr. split; reflexivity. }
  split.
  - intros tr. unfold BuildWrapper.launcher.
    destruct (Relaunch.truthy _).
    + intros [= <-]. apply Hrun.
    + destruct (BuildWrapper.findBinary _ _ _ _) as [[resolved|] | e];
        [| | discriminate].
      * intros [= <-]. apply Hrun.
      * intros [= <-]. split.
        -- eexists [_], _. split; [reflexivity |].
           intros e He c. repeat (apply elem_of_cons in He as [-> | He]);
             [discriminate | by apply elem_of_nil in He].
        -- intros target args Hin.
           repeat (apply elem_of_cons in Hin as [Hin | Hin]);
             try discriminate Hin. by apply elem_of_nil in Hin.
  - intros path Hpath Hne. unfold BuildWrapper.launcher. rewrite Hpath.
    simpl. apply String.eqb_neq in Hne. rewrite Hne. reflexivity.
Qed.

Lemma launcher_exit_witness :
  BuildWrapper.launcher LauncherSamples.overrideHost
  = PtyAdapter.Normal
      [BuildWrapper.SpawnSync (BuildWrapper.FromEnv "/opt/gemini")
         ["-p"; "hi"];
       BuildWrapper.ProcessExit 0].
Proof.
  refine (proj2 (launcher_exit LauncherSamples.overrideHost)
            "/opt/gemini" eq_refl _).
  discriminate.
Defined.

(** X24.  The launcher and the binary build agree on names, with one
    exception.  On a host whose platform, architecture and libc are those
    of a build target, the launcher looks for the file name the build gave
    the binary, and the package name of the target is one of the two
    directory names the launcher accepts ([base], [base-baseline]) unless
    the target is a musl baseline build: that package is built but never
    found.  A target without [avx2: false] is the launcher's first choice
    [base]. *)
Theorem launcher_accepts_target_package (t : BuildBinary.BuildTarget)
    (host : BuildWrapper.Host) :
  BuildWrapper.osPlatform host = BuildBinary.osString (BuildBinary.os t) ->
  BuildWrapper.osArch host = BuildBinary.archString (BuildBinary.arch t) ->
  BuildWrapper.suffix host
  = match BuildBinary.abi t with
    | Some BuildBinary.musl => "-musl"
    | None => ""
    end ->
  BuildWrapper.binary host = BuildBinaryLoop.binaryName t
  /\ (BuildBinary.avx2 t = None ->
      BuildBinary.getPackageName t = BuildWrapper.base host)
  /\ (BuildBinary.getPackageName t = BuildWrapper.base host
      \/ BuildBinary.getPackageName t = BuildWrapper.base host +:+ "-baseline"
      <-> ~ (BuildBinary.abi t = Some BuildBinary.musl
             /\ BuildBinary.avx2 t = Some BuildBinary.avx2_false)).
Proof.
  intros Hplatform Harch Hsuffix.
  unfold BuildWrapper.binary, BuildWrapper.base, BuildWrapper.platform,
    BuildWrapper.arch.
  rewrite Hplatform, Harch, Hsuffix. clear Hplatform Harch Hsuffix.
  destruct t as [[] [] [[]|] [[]|]]; vm_compute;
    (split; [reflexivity |]);
    (split; [intros H; first [reflexivity | discriminate H] |]);
    (split;
     [intros [H | H] [H1 H2];
      first [discriminate H1 | discriminate H2 | discriminate H]
     | intros Hn;
       first [left; reflexivity | right; reflexivity
             | exfalso; apply Hn; split; reflexivity]]).
Qed.

Lemma launcher_accepts_target_package_witness :
  BuildBinary.getPackageName
    {| BuildBinary.os := BuildBinary.linux; BuildBinary.arch := BuildBinary.x64;
       BuildBinary.abi := Some BuildBinary.musl; BuildBinary.avx2 := None |}
  = BuildWrapper.base LauncherSamples.muslHost.
Proof.
  refine (proj1 (proj2 (launcher_accepts_target_package
                          {| BuildBinary.os := BuildBinary.linux;
                             BuildBinary.arch := BuildBinary.x64;
                             BuildBinary.abi := Some BuildBinary.musl;
                             BuildBinary.avx2 := None |}
                          LauncherSamples.muslHost _ _ _)) _);
    reflexivity.
Defined.

(** Membership in a list written out. *)
Ltac list_mem :=
  repeat first [apply list_elem_of_here | apply list_elem_of_further].

Ltac list_not_mem :=
  let H := fresh "Hin" in
  intros H;
  repeat (apply elem_of_cons in H as [H | H]; [congruence |]);
  by apply elem_of_nil in H.

(** X25.  The release script and the binary build agree on flags: started
    by the release script, the binary build builds all targets of the
    table unless the release was started with [--single], and includes the
    baseline targets exactly when the release was started with
    [--baseline]; it never skips the bundle step. *)
Theorem release_selects_targets (releaseArgv : list string)
    (bun script : string) (platform : BuildBinary.OS)
    (arch_ : BuildBinary.Arch) :
  let childArgv := bun :: script :: BuildScripts.binaryArgs releaseArgv in
  bun ∉ ["--all"; "--baseline"; "--skip-bundle"] ->
  script ∉ ["--all"; "--baseline"; "--skip-bundle"] ->
  BuildScripts.targets childArgv platform arch_
  = BuildBinary.getTargets (negb (BuildScripts.singleFlag releaseArgv))
      (BuildScripts.baselineFlag releaseArgv) platform arch_
  /\ BuildScripts.skipBundleFlag childArgv = false.
Proof.
  cbv zeta. intros Hbun Hscript.
  assert (Hb1 : bun <> "--all") by (intros ->; apply Hbun; list_mem).
  assert (Hb2 : bun <> "--baseline") by (intros ->; apply Hbun; list_mem).
  assert (Hb3 : bun <> "--skip-bundle") by (intros ->; apply Hbun; list_mem).
  assert (Hs1 : script <> "--all") by (intros ->; apply Hscript; list_mem).
  assert (Hs2 : script <> "--baseline")
    by (intros ->; apply Hscript; list_mem).
  assert (Hs3 : script <> "--skip-bundle")
    by (intros ->; apply Hscript; list_mem).
  assert (Hall : BuildScripts.allFlag
                   (bun :: script :: BuildScripts.binaryArgs releaseArgv)
                 = negb (BuildScripts.singleFlag releaseArgv)).
  { unfold BuildScripts.allFlag, BuildScripts.binaryArgs,
      BuildScripts.argvIncludes.
    destruct (BuildScripts.singleFlag releaseArgv),
      (BuildScripts.baselineFlag releaseArgv); simpl;
      first [ apply bool_decide_eq_true_2; list_mem
            | apply bool_decide_eq_false_2; list_not_mem ]. }
  assert (Hbase : BuildScripts.baselineFlag
                    (bun :: script :: BuildScripts.binaryArgs releaseArgv)
                  = BuildScripts.baselineFlag releaseArgv).
  { unfold BuildScripts.binaryArgs.
    destruct (BuildScripts.singleFlag releaseArgv),
      (BuildScripts.baselineFlag releaseArgv); simpl;
      unfold BuildScripts.baselineFlag, BuildScripts.argvIncludes;
      first [ apply bool_decide_eq_true_2; list_mem
            | apply bool_decide_eq_false_2; list_not_mem ]. }
  split.
  - unfold BuildScripts.targets. rewrite Hall, Hbase. reflexivity.
  - unfold BuildScripts.skipBundleFlag, BuildScripts.binaryArgs,
      BuildScripts.argvIncludes.
    destruct (BuildScripts.singleFlag releaseArgv),
      (BuildScripts.baselineFlag releaseArgv); simpl;
      apply bool_decide_eq_false_2; list_not_mem.
Qed.

Lemma release_selects_targets_witness :
  BuildScripts.targets
    ("bun" :: "scripts/build-binary.ts"
     :: BuildScripts.binaryArgs ["bun"; "scripts/build-release.ts"])
    BuildBinary.linux BuildBinary.x64
  = List.filter BuildBinary.avx2NotFalse BuildBinary.allTargets.
Proof.
  refine (proj1 (release_selects_targets
                   ["bun"; "scripts/build-release.ts"]
                   "bun" "scripts/build-binary.ts"
                   BuildBinary.linux BuildBinary.x64 _ _)).
  - apply (bool_decide_unpack _). vm_compute. exact I.
  - apply (bool_decide_unpack _). vm_compute. exact I.
Defined.

Section BuildResults.
Import BuildBinary BuildScripts.

Lemma filter_partition_length {A : Type} (f : A -> bool) (l : list A) :
  length (List.filter f l) + length (List.filter (fun x => negb (f x)) l)
  = length l.
Proof.
  induction l as [|x l IH]; [reflexivity |].
  simpl. destruct (f x); simpl; lia.
Qed.

Lemma filter_length_Permutation {A : Type} (f : A -> bool) (l l' : list A) :
  l ≡ₚ l' -> length (List.filter f l) = length (List.filter f l').
Proof.
  induction 1 as [| x l l' _ IH | x y l | l l' l'' _ IH1 _ IH2]; simpl.
  - reflexivity.
  - destruct (f x); simpl; congruence.
  - destruct (f x), (f y); reflexivity.
  - congruence.
Qed.

Lemma getTargets_names_NoDup (allFlag_ baselineFlag_ : bool)
    (platform : OS) (arch_ : Arch) :
  NoDup (getPackageName <$> getTargets allFlag_ baselineFlag_ platform arch_).
Proof.
  destruct allFlag_, baselineFlag_, platform, arch_;
    apply (bool_decide_unpack _); vm_compute; exact I.
Qed.

(** With distinct package names the table of results has one entry per
    target, and earlier entries are not overwritten. *)
Lemma buildAll_entries (outcome : Outcome) (targets_ : list BuildTarget) :
  forall results,
    NoDup (getPackageName <$> targets_) ->
    (forall t, t ∈ targets_ -> results !! getPackageName t = None) ->
    map_to_list (buildAll outcome targets_ results)
    ≡ₚ ((fun t => (getPackageName t, resultOf outcome t)) <$> targets_)
       ++ map_to_list results.
Proof.
  unfold buildAll.
  induction targets_ as [|t ts IH]; intros results Hnd Hfresh;
    [reflexivity |].
  rewrite fmap_cons in Hnd. apply NoDup_cons in Hnd as [Hnotin Hnd].
  simpl. rewrite IH.
  - rewrite map_to_list_insert
      by (apply Hfresh, elem_of_cons; by left).
    rewrite (Permutation_middle _ (map_to_list results)). reflexivity.
  - exact Hnd.
  - intros t' Hin. rewrite lookup_insert_ne.
    + apply Hfresh, elem_of_cons. by right.
    + intros Heq. apply Hnotin. rewrite Heq.
      apply list_elem_of_fmap. by exists t'.
Qed.

End BuildResults.

(** X26.  The summary of the binary build accounts for every target: each
    selected target has its own entry in [results] under its package name,
    the numbers of successful and failed entries add up to the number of
    targets, and the script ends with [process.exit(1)] exactly when the
    build of at least one target threw. *)
Theorem build_summary_accounts_for_targets (allFlag baselineFlag : bool)
    (platform : BuildBinary.OS) (arch_ : BuildBinary.Arch)
    (outcome : BuildScripts.Outcome) :
  let targets :=
    BuildBinary.getTargets allFlag baselineFlag platform arch_ in
  let results := BuildScripts.buildAll outcome targets ∅ in
  (forall t, t ∈ targets ->
     results !! BuildBinary.getPackageName t
     = Some (BuildScripts.resultOf outcome t))
  /\ length (BuildScripts.successful results)
     + length (BuildScripts.failed results) = length targets
  /\ (BuildScripts.exitsWithFailure results = true
      <-> exists t, t ∈ targets /\ outcome t <> None).
Proof.
  cbv zeta.
  pose proof (buildAll_entries outcome
                (BuildBinary.getTargets allFlag baselineFlag platform arch_)
                ∅ (getTargets_names_NoDup _ _ _ _)
                (fun t _ => lookup_empty _)) as Hperm.
  rewrite map_to_list_empty, app_nil_r in Hperm.
  split; [| split].
  - intros t Hin. apply elem_of_map_to_list. rewrite Hperm.
    apply list_elem_of_fmap. by exists t.
  - unfold BuildScripts.successful, BuildScripts.failed.
    rewrite filter_partition_length.
    rewrite Hperm, length_fmap. reflexivity.
  - unfold BuildScripts.exitsWithFailure, BuildScripts.failed.
    rewrite (filter_length_Permutation _ _ _ Hperm).
    rewrite Nat.ltb_lt. split.
    + intros Hlen.
      destruct (List.filter _ _) as [|[name result] rest] eqn:Hfilter;
        [simpl in Hlen; lia |].
      assert (Hin : In (name, result)
                      (List.filter
                         (fun entry => negb (BuildScripts.success entry.2))
                         ((fun t => (BuildBinary.getPackageName t,
                                     BuildScripts.resultOf outcome t))
                            <$> BuildBinary.getTargets allFlag baselineFlag
                                  platform arch_)))
        by (rewrite Hfilter; left; reflexivity).
      apply List.filter_In in Hin as [Hin Hfailed].
      apply list_elem_of_In, list_elem_of_fmap in Hin as (t & Heq & Hin).
      exists t. split; [exact Hin |].
      injection Heq as -> ->. unfold BuildScripts.resultOf in Hfailed.
      destruct (outcome t); [discriminate | discriminate Hfailed].
    + intros (t & Hin & Hthrew).
      assert (Hmem : In (BuildBinary.getPackageName t,
                         BuildScripts.resultOf outcome t)
                       (List.filter
                          (fun entry => negb (BuildScripts.success entry.2))
                          ((fun t => (BuildBinary.getPackageName t,
                                      BuildScripts.resultOf outcome t))
                             <$> BuildBinary.getTargets allFlag baselineFlag
                                   platform arch_))).
      { apply List.filter_In. split.
        - apply list_elem_of_In, list_elem_of_fmap. by exists t.
        - unfold BuildScripts.resultOf. simpl.
          destruct (outcome t); [reflexivity | done]. }
      destruct (List.filter _ _); [destruct Hmem | simpl; lia].
Qed.

Lemma build_summary_accounts_for_targets_witness :
  BuildScripts.exitsWithFailure
    (BuildScripts.buildAll
       (fun t => match BuildBinary.os t with
                 | BuildBinary.win32 => Some "Build failed with exit code 1: "
                 | _ => None
                 end)
       (BuildBinary.getTargets true false BuildBinary.linux BuildBinary.x64)
       ∅)
  = true.
Proof.
  apply (proj2 (proj2 (build_summary_accounts_for_targets true false
                         BuildBinary.linux BuildBinary.x64 _))).
  exists {| BuildBinary.os := BuildBinary.win32;
            BuildBinary.arch := BuildBinary.x64;
            BuildBinary.abi := None; BuildBinary.avx2 := None |}.
  split; [| discriminate].
  unfold BuildBinary.getTargets. simpl. list_mem.
Defined.

(** X27.  [createPtyAdapter] hands out an adapter only under Bun, and any
    adapter it hands out is the bun-pty one: its [backend] is ['bun-pty']
    and its [spawn] is the adapter's [spawn] over the function that is
    cached from then on. *)
Theorem createPtyAdapter_adapter_is_bun_pty {R : Type}
    (host : PtyAdapter.Host) (st st1 : PtyAdapter.ModuleState)
    (adapter : PtyAdapter.PtyAdapter R) :
  PtyAdapter.createPtyAdapter host st = (PtyAdapter.Normal (Some adapter), st1)
  ->
  PtyAdapter.isBun host = true
  /\ PtyAdapter.backend adapter = "bun-pty"
  /\ exists f,
       PtyAdapter.bunPtySpawn st1 = Some f
       /\ PtyAdapter.adapter_spawn adapter = PtyAdapter.spawn f.
Proof.
  intros Hcall.
  destruct (PtyAdapter.isBun host) eqn:Hbun.
  - pose proof (createPtyAdapter_cases (R := R) host st Hbun) as H1.
    destruct (PtyAdapter.bunPtySpawn st) as [f|] eqn:Hcache.
    + rewrite H1 in Hcall. injection Hcall as <- <-.
      split; [reflexivity |]. split; [reflexivity |]. eauto.
    + destruct (PtyAdapter.importBunPty host) as [f | e].
      * rewrite H1 in Hcall. injection Hcall as <- <-.
        split; [reflexivity |]. split; [reflexivity |]. eauto.
      * rewrite H1 in Hcall. discriminate.
  - unfold PtyAdapter.createPtyAdapter in Hcall. rewrite Hbun in Hcall.
    discriminate.
Qed.

Lemma createPtyAdapter_adapter_is_bun_pty_witness :
  PtyAdapter.isBun MorePtySamples.bunHost = true.
Proof.
  refine (proj1 (createPtyAdapter_adapter_is_bun_pty (R := unit)
                   MorePtySamples.bunHost PtySamples.freshModule _ _ _)).
  reflexivity.
Defined.

(** On a glibc host with only the baseline package installed next to the
    wrapper, the launcher runs that package's binary with the user's
    arguments and exits with the child's status. *)
Example launcher_runs_baseline_package :
  BuildWrapper.launcher LauncherSamples.glibcHost
  = PtyAdapter.Normal
      [BuildWrapper.SpawnSync
         (BuildWrapper.Resolved
            ["gemini"; "bin"; "bun-gemini-cli-linux-x64-baseline";
             "node_modules"; "app"; "u"; "home"])
         ["--version"];
       BuildWrapper.ProcessExit 3].
Proof. reflexivity. Qed.
